(** * Role-based sharing core: permissions.py and collaboration.py

    A shallow embedding of the authorization core of the repository
    ([src/permissions.py], [src/collaboration.py]) together with the
    properties its specification states about it.

    Conventions of the embedding.
    - A [UUID] is its 128-bit integer value, a naive [datetime] a number of
      microseconds; both are compared the way Python compares them.
    - A Python [dict] is an insertion-ordered association list ([pydict]):
      [d.get(k)], [d[k] = v], [del d[k]], [k in d] and [d.values()] are
      [dict_get], [dict_set], [dict_del], [dict_mem], [dict_values].
    - A method of [CollaborationManager] is a computation in the monad [M]:
      it threads the manager's state and either returns or raises.  A
      raised exception leaves the state as it is at the point of the raise,
      so nothing is rolled back for free.
    - A [Document] object registered in [self.documents] is identified with
      its key there: a mutation of the object is a write to that entry.
      Distinct entries hold distinct objects: documents share neither their
      dicts nor their records, as in every state the methods build.
    - [datetime.now()] and [uuid4()] are inputs of the call that uses them. *)

From Stdlib Require Import List Bool Arith NArith ZArith Lia.
From Stdlib Require Import Ascii String.
Import ListNotations.

Set Implicit Arguments.

(* ------------------------------------------------------------------ *)
(** ** Python strings (ASCII range)

    A [str] is a sequence of one-byte characters and [str.lower] acts on
    the letters [A]..[Z].  Outside ASCII, [str.lower] yields none of the
    letters the role names are written with, so the role parser sees such
    characters as it sees any other non-letter. *)

Module PyStr.

Definition is_upper (c : ascii) : bool :=
  let n := N_of_ascii c in
  ((65 <=? n) && (n <=? 90))%N.

(** [str.lower] on one character: [A]..[Z] move to [a]..[z]. *)
Definition lower_char (c : ascii) : ascii :=
  if is_upper c then ascii_of_N (N_of_ascii c + 32) else c.

Fixpoint lower (s : string) : string :=
  match s with
  | EmptyString => EmptyString
  | String c s' => String (lower_char c) (lower s')
  end.

(** Two characters are the same letter up to case: they are equal, or one
    is an upper-case letter and the other its lower-case form.  This is
    the specification's notion, stated without [lower]. *)
Definition char_eq_nocase (a b : ascii) : bool :=
  Ascii.eqb a b
  || (is_upper a && Ascii.eqb (lower_char a) b)
  || (is_upper b && Ascii.eqb (lower_char b) a).

Fixpoint eq_nocase (s t : string) : bool :=
  match s, t with
  | EmptyString, EmptyString => true
  | String a s', String b t' => char_eq_nocase a b && eq_nocase s' t'
  | _, _ => false
  end.

(** Every character, by code. *)
Definition all_ascii : list ascii := map ascii_of_nat (seq 0 256).

End PyStr.

(* ------------------------------------------------------------------ *)
(** ** permissions.py *)

(** [class Role(str, Enum)], in definition order. *)
Inductive Role : Type := OWNER | EDITOR | VIEWER.

(** [class Permission(str, Enum)]. *)
Inductive Permission : Type := VIEW | EDIT | MANAGE.

(** [role.value]. *)
Definition Role_value (r : Role) : string :=
  match r with
  | OWNER => "owner"
  | EDITOR => "editor"
  | VIEWER => "viewer"
  end.

(** Iteration order of [for role in Role]. *)
Definition Role_members : list Role := [OWNER; EDITOR; VIEWER].

Definition Permission_eqb (a b : Permission) : bool :=
  match a, b with
  | VIEW, VIEW | EDIT, EDIT | MANAGE, MANAGE => true
  | _, _ => false
  end.

(** [_ROLE_PERMISSIONS]. *)
Definition _ROLE_PERMISSIONS (r : Role) : list Permission :=
  match r with
  | OWNER => [VIEW; EDIT; MANAGE]
  | EDITOR => [VIEW; EDIT]
  | VIEWER => [VIEW]
  end.

(** [permission in _ROLE_PERMISSIONS[role]]. *)
Definition can (role : Role) (permission : Permission) : bool :=
  existsb (Permission_eqb permission) (_ROLE_PERMISSIONS role).

Definition has_permission (role : option Role) (permission : Permission)
  : bool :=
  match role with
  | None => false
  | Some r => can r permission
  end.

(* ------------------------------------------------------------------ *)
(** ** Exceptions *)

Definition UUID : Type := N.
Definition datetime : Type := Z.

Bind Scope N_scope with UUID.
Bind Scope Z_scope with datetime.

(** One constructor per [raise] of the two modules, carrying what the
    message interpolates. *)
Inductive Exception : Type :=
| Unsupported_role (value : string)
    (** [ValueError(f"Unsupported role: {value}")] *)
| Lacks_permission (user_id : UUID) (permission : Permission)
                   (document_id : UUID)
    (** [PermissionError(f"User {..} lacks .. permission for document {..}")] *)
| Document_not_found (document_id : UUID)
    (** [ValueError(f"Document {document_id} not found")] *)
| User_not_found (user_id : UUID)
    (** [ValueError(f"User {user_id} not found")] *)
| Cannot_add_owner
    (** [ValueError("Cannot add document owner as collaborator")] *)
| Not_a_collaborator (user_id document_id : UUID)
    (** [ValueError(f"User {..} is not a collaborator on document {..}")] *)
| Share_link_not_found_for (link_id document_id : UUID)
    (** [ValueError(f"Share link {..} not found for document {..}")] *)
| Share_link_inactive (link_id : UUID)
    (** [ValueError(f"Share link {link_id} is no longer active")] *)
| Share_link_expired (link_id : UUID)
    (** [ValueError(f"Share link {link_id} has expired")] *)
| Share_link_not_found (link_id : UUID)
    (** [ValueError(f"Share link {link_id} not found")] *).

Inductive ExceptionClass : Type := PermissionError | ValueError.

Definition exception_class (e : Exception) : ExceptionClass :=
  match e with
  | Lacks_permission _ _ _ => PermissionError
  | _ => ValueError
  end.

(** The error taxonomy of the specification, and the kind it gives to each
    exception the code raises. *)
Inductive ErrorKind : Type :=
| Forbidden | NotFound | InvalidOperation
| LinkInactive | LinkExpired | InvalidRole.

Definition error_kind (e : Exception) : ErrorKind :=
  match e with
  | Unsupported_role _ => InvalidRole
  | Lacks_permission _ _ _ => Forbidden
  | Document_not_found _ => NotFound
  | User_not_found _ => NotFound
  | Cannot_add_owner => InvalidOperation
  | Not_a_collaborator _ _ => NotFound
  | Share_link_not_found_for _ _ => NotFound
  | Share_link_inactive _ => LinkInactive
  | Share_link_expired _ => LinkExpired
  | Share_link_not_found _ => NotFound
  end.

(** What a call does: it returns a value or raises. *)
Inductive result (A : Type) : Type :=
| Returns (a : A)
| Raises (e : Exception).

Arguments Returns {A} a.
Arguments Raises {A} e.

(** [role_from_str]: the loop over [Role] returns the first member whose
    value is the lower-cased input. *)
Definition role_from_str (value : string) : result Role :=
  let normalized := PyStr.lower value in
  match find (fun role => String.eqb (Role_value role) normalized)
             Role_members with
  | Some role => Returns role
  | None => Raises (Unsupported_role value)
  end.

(** The specification's reading of [role_from_str]: the role whose
    canonical name matches the input up to letter case, if there is one. *)
Definition role_matching_nocase (value : string) : option Role :=
  find (fun role => PyStr.eq_nocase value (Role_value role)) Role_members.

(* ------------------------------------------------------------------ *)
(** ** Python dictionaries keyed by UUID *)

Definition pydict (V : Type) : Type := list (UUID * V).

Section PyDict.
Variable V : Type.

Fixpoint dict_get (k : UUID) (d : pydict V) : option V :=
  match d with
  | [] => None
  | (k', v) :: d' => if (k =? k')%N then Some v else dict_get k d'
  end.

Definition dict_mem (k : UUID) (d : pydict V) : bool :=
  match dict_get k d with
  | Some _ => true
  | None => false
  end.

(** [d[k] = v]: an existing key keeps its position, a new one goes last. *)
Fixpoint dict_set (k : UUID) (v : V) (d : pydict V) : pydict V :=
  match d with
  | [] => [(k, v)]
  | (k', v') :: d' =>
      if (k =? k')%N then (k, v) :: d' else (k', v') :: dict_set k v d'
  end.

(** [del d[k]], for a key that is present. *)
Fixpoint dict_del (k : UUID) (d : pydict V) : pydict V :=
  match d with
  | [] => []
  | (k', v') :: d' =>
      if (k =? k')%N then d' else (k', v') :: dict_del k d'
  end.

Definition dict_values (d : pydict V) : list V := map snd d.

(** Keys are pairwise distinct, as in every Python dict. *)
Fixpoint dict_wf (d : pydict V) : bool :=
  match d with
  | [] => true
  | (k, _) :: d' => negb (dict_mem k d') && dict_wf d'
  end.
End PyDict.

(* ------------------------------------------------------------------ *)
(** ** The dataclasses of collaboration.py *)

(** [content] and [metadata] are free-form dicts the core never reads. *)
Definition JsonDict : Type := list (string * string).

Module User.
Record t : Type := mk {
  id : UUID;
  email : string;
  name : string
}.
End User.

Module ShareLink.
Record t : Type := mk {
  id : UUID;
  document_id : UUID;
  created_by : UUID;
  created_at : datetime;
  expires_at : option datetime;
  access_role : Role;
  is_active : bool;
  access_count : Z
}.

Definition set_is_active (l : t) (b : bool) : t :=
  mk (id l) (document_id l) (created_by l) (created_at l) (expires_at l)
     (access_role l) b (access_count l).

Definition set_access_count (l : t) (n : Z) : t :=
  mk (id l) (document_id l) (created_by l) (created_at l) (expires_at l)
     (access_role l) (is_active l) n.
End ShareLink.

Module Collaborator.
Record t : Type := mk {
  user_id : UUID;
  document_id : UUID;
  role : Role;
  added_by : UUID;
  added_at : datetime;
  last_accessed : option datetime
}.

Definition set_last_accessed (c : t) (d : option datetime) : t :=
  mk (user_id c) (document_id c) (role c) (added_by c) (added_at c) d.
End Collaborator.

Module Document.
Record t : Type := mk {
  id : UUID;
  title : string;
  content : JsonDict;
  owner_id : UUID;
  created_at : datetime;
  updated_at : datetime;
  metadata : JsonDict;
  collaborators : pydict Collaborator.t;
  share_links : pydict ShareLink.t
}.

Definition set_collaborators (d : t) (c : pydict Collaborator.t) : t :=
  mk (id d) (title d) (content d) (owner_id d) (created_at d)
     (updated_at d) (metadata d) c (share_links d).

Definition set_share_links (d : t) (l : pydict ShareLink.t) : t :=
  mk (id d) (title d) (content d) (owner_id d) (created_at d)
     (updated_at d) (metadata d) (collaborators d) l.
End Document.

(** The state of a [CollaborationManager]. *)
Record CollaborationManager : Type := mkManager {
  documents : pydict Document.t;
  users : pydict User.t
}.

(** [CollaborationManager()]. *)
Definition init : CollaborationManager := mkManager [] [].

(* ------------------------------------------------------------------ *)
(** ** Methods as computations over the manager's state *)

Definition M (A : Type) : Type :=
  CollaborationManager -> result A * CollaborationManager.

Definition ret {A} (a : A) : M A := fun self => (Returns a, self).

Definition bind {A B} (m : M A) (k : A -> M B) : M B :=
  fun self =>
    match m self with
    | (Returns a, self') => k a self'
    | (Raises e, self') => (Raises e, self')
    end.

Definition raise {A} (e : Exception) : M A := fun self => (Raises e, self).

(** Read something off [self]. *)
Definition gets {A} (f : CollaborationManager -> A) : M A :=
  fun self => (Returns (f self), self).

(** A mutation of the [Document] object registered under [key]: the entry
    of [self.documents] now holds the mutated object. *)
Definition write_document (key : UUID) (document : Document.t) : M unit :=
  fun self =>
    (Returns tt, mkManager (dict_set key document (documents self))
                           (users self)).

Declare Scope py_scope.
Delimit Scope py_scope with py.
Notation "x <- c ;; k" := (bind c (fun x => k))
  (at level 61, c at next level, right associativity) : py_scope.
Notation "c ;; k" := (bind c (fun _ => k))
  (at level 61, right associativity) : py_scope.
Open Scope py_scope.

Definition add_user (user : User.t) : M unit :=
  fun self =>
    (Returns tt, mkManager (documents self)
                           (dict_set (User.id user) user (users self))).

Definition add_document (document : Document.t) : M unit :=
  fun self =>
    (Returns tt, mkManager (dict_set (Document.id document) document
                                     (documents self))
                           (users self)).

Definition get_user_role (self : CollaborationManager)
           (user_id document_id : UUID) : option Role :=
  match dict_get document_id (documents self) with
  | None => None
  | Some document =>
      if (Document.owner_id document =? user_id)%N then Some OWNER
      else match dict_get user_id (Document.collaborators document) with
           | Some collaborator => Some (Collaborator.role collaborator)
           | None => None
           end
  end.

Definition check_permission (self : CollaborationManager)
           (user_id document_id : UUID) (permission : Permission) : bool :=
  let role := get_user_role self user_id document_id in
  has_permission role permission.

Definition add_collaborator (document_id user_id : UUID) (role : Role)
           (added_by : UUID) (now : datetime) : M Collaborator.t :=
  allowed <- gets (fun self =>
                     check_permission self added_by document_id MANAGE) ;;
  if negb allowed then
    raise (Lacks_permission added_by MANAGE document_id)
  else
    found <- gets (fun self => dict_get document_id (documents self)) ;;
    match found with
    | None => raise (Document_not_found document_id)
    | Some document =>
        registered <- gets (fun self => dict_mem user_id (users self)) ;;
        if negb registered then raise (User_not_found user_id)
        else if (user_id =? Document.owner_id document)%N then
          raise Cannot_add_owner
        else
          let collaborator :=
            Collaborator.mk user_id document_id role added_by now None in
          write_document document_id
            (Document.set_collaborators document
               (dict_set user_id collaborator
                         (Document.collaborators document))) ;;
          ret collaborator
    end.

Definition remove_collaborator (document_id user_id removed_by : UUID)
  : M unit :=
  allowed <- gets (fun self =>
                     check_permission self removed_by document_id MANAGE) ;;
  if negb allowed then
    raise (Lacks_permission removed_by MANAGE document_id)
  else
    found <- gets (fun self => dict_get document_id (documents self)) ;;
    match found with
    | None => raise (Document_not_found document_id)
    | Some document =>
        if negb (dict_mem user_id (Document.collaborators document)) then
          raise (Not_a_collaborator user_id document_id)
        else
          write_document document_id
            (Document.set_collaborators document
               (dict_del user_id (Document.collaborators document)))
    end.

(** [uuid4()] returned [new_id]. *)
Definition create_share_link (document_id created_by : UUID) (role : Role)
           (expires_at : option datetime) (new_id : UUID) (now : datetime)
  : M ShareLink.t :=
  allowed <- gets (fun self =>
                     check_permission self created_by document_id MANAGE) ;;
  if negb allowed then
    raise (Lacks_permission created_by MANAGE document_id)
  else
    found <- gets (fun self => dict_get document_id (documents self)) ;;
    match found with
    | None => raise (Document_not_found document_id)
    | Some document =>
        let share_link :=
          ShareLink.mk new_id document_id created_by now expires_at role
                       true 0 in
        write_document document_id
          (Document.set_share_links document
             (dict_set (ShareLink.id share_link) share_link
                       (Document.share_links document))) ;;
        ret share_link
    end.

Definition revoke_share_link (document_id link_id revoked_by : UUID)
  : M unit :=
  allowed <- gets (fun self =>
                     check_permission self revoked_by document_id MANAGE) ;;
  if negb allowed then
    raise (Lacks_permission revoked_by MANAGE document_id)
  else
    found <- gets (fun self => dict_get document_id (documents self)) ;;
    match found with
    | None => raise (Document_not_found document_id)
    | Some document =>
        match dict_get link_id (Document.share_links document) with
        | None => raise (Share_link_not_found_for link_id document_id)
        | Some share_link =>
            write_document document_id
              (Document.set_share_links document
                 (dict_set link_id (ShareLink.set_is_active share_link false)
                           (Document.share_links document)))
        end
    end.

(** [share_link.expires_at and now > share_link.expires_at]. *)
Definition has_expired (share_link : ShareLink.t) (now : datetime) : bool :=
  match ShareLink.expires_at share_link with
  | None => false
  | Some expires_at => (expires_at <? now)%Z
  end.

(** The loop of [access_via_share_link] over [self.documents.values()];
    [now_check] and [now_touch] are what its two [datetime.now()] return.
    In [if user_id and ...] a UUID is never falsy, so the test is on
    [user_id] being given. *)
Fixpoint access_scan (link_id : UUID) (user_id : option UUID)
         (now_check now_touch : datetime)
         (items : list (UUID * Document.t)) : M (Document.t * Role) :=
  match items with
  | [] => raise (Share_link_not_found link_id)
  | (key, document) :: rest =>
      match dict_get link_id (Document.share_links document) with
      | Some share_link =>
          if negb (ShareLink.is_active share_link) then
            raise (Share_link_inactive link_id)
          else if has_expired share_link now_check then
            raise (Share_link_expired link_id)
          else
            let share_link :=
              ShareLink.set_access_count
                share_link (ShareLink.access_count share_link + 1) in
            let document :=
              Document.set_share_links document
                (dict_set link_id share_link
                          (Document.share_links document)) in
            write_document key document ;;
            document <-
              match user_id with
              | Some uid =>
                  match dict_get uid (Document.collaborators document) with
                  | Some collaborator =>
                      let document :=
                        Document.set_collaborators document
                          (dict_set uid
                             (Collaborator.set_last_accessed
                                collaborator (Some now_touch))
                             (Document.collaborators document)) in
                      write_document key document ;;
                      ret document
                  | None => ret document
                  end
              | None => ret document
              end ;;
            ret (document, ShareLink.access_role share_link)
      | None => access_scan link_id user_id now_check now_touch rest
      end
  end.

Definition access_via_share_link (link_id : UUID) (user_id : option UUID)
           (now_check now_touch : datetime) : M (Document.t * Role) :=
  items <- gets (fun self => documents self) ;;
  access_scan link_id user_id now_check now_touch items.

Definition list_collaborators (document_id user_id : UUID)
  : M (list Collaborator.t) :=
  allowed <- gets (fun self =>
                     check_permission self user_id document_id VIEW) ;;
  if negb allowed then
    raise (Lacks_permission user_id VIEW document_id)
  else
    found <- gets (fun self => dict_get document_id (documents self)) ;;
    match found with
    | None => raise (Document_not_found document_id)
    | Some document => ret (dict_values (Document.collaborators document))
    end.

Definition list_share_links (document_id user_id : UUID)
  : M (list ShareLink.t) :=
  allowed <- gets (fun self =>
                     check_permission self user_id document_id MANAGE) ;;
  if negb allowed then
    raise (Lacks_permission user_id MANAGE document_id)
  else
    found <- gets (fun self => dict_get document_id (documents self)) ;;
    match found with
    | None => raise (Document_not_found document_id)
    | Some document => ret (dict_values (Document.share_links document))
    end.


(* ------------------------------------------------------------------ *)
(** ** Notions the statements below are phrased with *)

(** The state a call leaves behind, whatever it returned or raised. *)
Definition state_after {A} (m : M A) (self : CollaborationManager)
  : CollaborationManager := snd (m self).

Definition outcome {A} (m : M A) (self : CollaborationManager) : result A :=
  fst (m self).

(** A call that raises leaves the manager exactly as it found it. *)
Definition atomic_on_failure {A} (m : M A) : Prop :=
  forall self e self', m self = (Raises e, self') -> self' = self.

(** The call is refused at the gate: [PermissionError], state untouched. *)
Definition refused {A} (m : M A) (actor document_id : UUID)
           (self : CollaborationManager) : Prop :=
  m self = (Raises (Lacks_permission actor MANAGE document_id), self).

(** All five manage-gated operations at once. *)
Definition all_refused (self : CollaborationManager)
           (actor document_id : UUID) : Prop :=
  (forall user_id role now,
      refused (add_collaborator document_id user_id role actor now)
              actor document_id self) /\
  (forall user_id,
      refused (remove_collaborator document_id user_id actor)
              actor document_id self) /\
  (forall role expires_at new_id now,
      refused (create_share_link document_id actor role expires_at new_id
                                 now)
              actor document_id self) /\
  (forall link_id,
      refused (revoke_share_link document_id link_id actor)
              actor document_id self) /\
  refused (list_share_links document_id actor) actor document_id self.

(** The five manage-gated operations have the same outcome for [actor] on
    [document_id] in two states. *)
Definition same_outcomes (s1 s2 : CollaborationManager)
           (actor document_id : UUID) : Prop :=
  (forall user_id role now,
      outcome (add_collaborator document_id user_id role actor now) s1 =
      outcome (add_collaborator document_id user_id role actor now) s2) /\
  (forall user_id,
      outcome (remove_collaborator document_id user_id actor) s1 =
      outcome (remove_collaborator document_id user_id actor) s2) /\
  (forall role expires_at new_id now,
      outcome (create_share_link document_id actor role expires_at new_id
                                 now) s1 =
      outcome (create_share_link document_id actor role expires_at new_id
                                 now) s2) /\
  (forall link_id,
      outcome (revoke_share_link document_id link_id actor) s1 =
      outcome (revoke_share_link document_id link_id actor) s2) /\
  outcome (list_share_links document_id actor) s1 =
  outcome (list_share_links document_id actor) s2.

(** None of the five manage-gated operations can report [document_id] as
    not found. *)
Definition never_document_not_found (self : CollaborationManager)
           (actor document_id : UUID) : Prop :=
  (forall user_id role now,
      outcome (add_collaborator document_id user_id role actor now) self <>
      Raises (Document_not_found document_id)) /\
  (forall user_id,
      outcome (remove_collaborator document_id user_id actor) self <>
      Raises (Document_not_found document_id)) /\
  (forall role expires_at new_id now,
      outcome (create_share_link document_id actor role expires_at new_id
                                 now) self <>
      Raises (Document_not_found document_id)) /\
  (forall link_id,
      outcome (revoke_share_link document_id link_id actor) self <>
      Raises (Document_not_found document_id)) /\
  outcome (list_share_links document_id actor) self <>
  Raises (Document_not_found document_id).

(** The global lookup of [access_via_share_link]: the first document, in
    the order of [self.documents], whose links have this id. *)
Fixpoint find_share_link (link_id : UUID) (items : list (UUID * Document.t))
  : option (UUID * Document.t * ShareLink.t) :=
  match items with
  | [] => None
  | (key, document) :: rest =>
      match dict_get link_id (Document.share_links document) with
      | Some share_link => Some (key, document, share_link)
      | None => find_share_link link_id rest
      end
  end.

(** The global lookup of [link_id] lands on a link of [document_id] that
    is active, has no expiry and has been redeemed [count] times. *)
Definition live_link (self : CollaborationManager)
           (document_id link_id : UUID) (count : Z) : Prop :=
  exists document share_link,
    find_share_link link_id (documents self) =
    Some (document_id, document, share_link) /\
    dict_get document_id (documents self) = Some document /\
    ShareLink.is_active share_link = true /\
    ShareLink.expires_at share_link = None /\
    ShareLink.access_count share_link = count.

(** No registered document holds a link with this id. *)
Definition link_unknown (link_id : UUID) (self : CollaborationManager)
  : Prop :=
  forall key document,
    In (key, document) (documents self) ->
    dict_get link_id (Document.share_links document) = None.

(** [self.documents[document_id].share_links.get(link_id)]. *)
Definition share_link_of (self : CollaborationManager)
           (document_id link_id : UUID) : option ShareLink.t :=
  match dict_get document_id (documents self) with
  | Some document => dict_get link_id (Document.share_links document)
  | None => None
  end.

(** [self.documents[document_id].collaborators.get(user_id)]. *)
Definition collaborator_of (self : CollaborationManager)
           (document_id user_id : UUID) : option Collaborator.t :=
  match dict_get document_id (documents self) with
  | Some document => dict_get user_id (Document.collaborators document)
  | None => None
  end.

(** The [Document] object once a redemption of [share_link] by [user_id]
    has gone through: counter bumped, the caller's collaborator record (if
    there is one) stamped. *)
Definition redeemed (document : Document.t) (share_link : ShareLink.t)
           (link_id : UUID) (user_id : option UUID) (now_touch : datetime)
  : Document.t :=
  let bumped :=
    Document.set_share_links document
      (dict_set link_id
         (ShareLink.set_access_count
            share_link (ShareLink.access_count share_link + 1))
         (Document.share_links document)) in
  match user_id with
  | Some uid =>
      match dict_get uid (Document.collaborators bumped) with
      | Some collaborator =>
          Document.set_collaborators bumped
            (dict_set uid
               (Collaborator.set_last_accessed collaborator (Some now_touch))
               (Document.collaborators bumped))
      | None => bumped
      end
  | None => bumped
  end.

(** Redemptions of one link, one after the other; each is given the caller
    and the two clock readings of that call. *)
Fixpoint redeem_all (link_id : UUID)
         (callers : list (option UUID * datetime * datetime)) : M unit :=
  match callers with
  | [] => ret tt
  | (user_id, now_check, now_touch) :: rest =>
      access_via_share_link link_id user_id now_check now_touch ;;
      redeem_all link_id rest
  end.

(** No document lists its own owner among its collaborators. *)
Definition owners_unlisted (self : CollaborationManager) : bool :=
  forallb (fun entry =>
             negb (dict_mem (Document.owner_id (snd entry))
                            (Document.collaborators (snd entry))))
          (documents self).

(** The operations of the collaboration core, as calls. *)
Inductive Call : Type :=
| Add_collaborator (document_id user_id : UUID) (role : Role)
                   (added_by : UUID) (now : datetime)
| Remove_collaborator (document_id user_id removed_by : UUID)
| Create_share_link (document_id created_by : UUID) (role : Role)
                    (expires_at : option datetime) (new_id : UUID)
                    (now : datetime)
| Revoke_share_link (document_id link_id revoked_by : UUID)
| Access_via_share_link (link_id : UUID) (user_id : option UUID)
                        (now_check now_touch : datetime)
| List_collaborators (document_id user_id : UUID)
| List_share_links (document_id user_id : UUID).

Definition perform (self : CollaborationManager) (c : Call)
  : CollaborationManager :=
  match c with
  | Add_collaborator d u r a now =>
      state_after (add_collaborator d u r a now) self
  | Remove_collaborator d u a => state_after (remove_collaborator d u a) self
  | Create_share_link d a r e i now =>
      state_after (create_share_link d a r e i now) self
  | Revoke_share_link d l a => state_after (revoke_share_link d l a) self
  | Access_via_share_link l u n1 n2 =>
      state_after (access_via_share_link l u n1 n2) self
  | List_collaborators d u => state_after (list_collaborators d u) self
  | List_share_links d u => state_after (list_share_links d u) self
  end.

(** The state reached from [self] by a sequence of calls, failed ones
    included. *)
Definition run (calls : list Call) (self : CollaborationManager)
  : CollaborationManager := fold_left perform calls self.

(** Two states that differ at most in which users are registered and in
    which share links the documents hold. *)
Definition same_but_targets (s1 s2 : CollaborationManager) : Prop :=
  Forall2 (fun e1 e2 =>
             fst e1 = fst e2 /\
             Document.set_share_links (snd e1) [] =
             Document.set_share_links (snd e2) [])
          (documents s1) (documents s2).

(** *** A small scenario: owner 1, editor 2, viewer 3, stranger 4 *)

Definition blank_document (id owner_id : UUID) : Document.t :=
  Document.mk id "Test Document" [("text", "Test content")]%string
              owner_id 0 0 [] [] [].

Definition scenario : CollaborationManager :=
  run [Add_collaborator 10 2 EDITOR 1 5; Add_collaborator 10 3 VIEWER 1 6]
      (state_after (add_user (User.mk 1 "owner@test.com" "Owner") ;;
                    add_user (User.mk 2 "editor@test.com" "Editor") ;;
                    add_user (User.mk 3 "viewer@test.com" "Viewer") ;;
                    add_document (blank_document 10 1) ;;
                    add_document (blank_document 11 2))
                   init).

(** The scenario after the owner has created link 77 on document 10. *)
Definition scenario_linked : CollaborationManager :=
  perform scenario (Create_share_link 10 1 VIEWER None 77 7).

(** The same after the owner has revoked link 77. *)
Definition scenario_revoked : CollaborationManager :=
  perform scenario_linked (Revoke_share_link 10 77 1).

(** The scenario after the owner has created link 78 on document 10 with
    an expiry of 5. *)
Definition scenario_expiring : CollaborationManager :=
  perform scenario (Create_share_link 10 1 EDITOR (Some 5%Z) 78 3).


(** Unfolding a method down to its reads, writes and raises. *)
Ltac unfold_method :=
  unfold add_collaborator, remove_collaborator, create_share_link,
    revoke_share_link, list_collaborators, list_share_links,
    access_via_share_link, bind, gets, raise, ret, write_document.

Ltac unfold_method_in H :=
  unfold add_collaborator, remove_collaborator, create_share_link,
    revoke_share_link, list_collaborators, list_share_links,
    access_via_share_link, bind, gets, raise, ret, write_document in H.


(* ------------------------------------------------------------------ *)
(** ** How a call changes a document *)

(** The one write a successful call makes: [document], registered under
    [key], becomes [document'].  Calls that only read make none. *)
Definition document_step (c : Call) (key : UUID)
           (document document' : Document.t) : Prop :=
  match c with
  | Add_collaborator d u r a now =>
      key = d /\ u <> Document.owner_id document /\
      document' =
      Document.set_collaborators document
        (dict_set u (Collaborator.mk u d r a now None)
                  (Document.collaborators document))
  | Remove_collaborator d u a =>
      key = d /\
      dict_mem u (Document.collaborators document) = true /\
      document' =
      Document.set_collaborators document
        (dict_del u (Document.collaborators document))
  | Create_share_link d a r e i now =>
      key = d /\
      document' =
      Document.set_share_links document
        (dict_set i (ShareLink.mk i d a now e r true 0)
                  (Document.share_links document))
  | Revoke_share_link d l a =>
      key = d /\
      exists share_link,
        dict_get l (Document.share_links document) = Some share_link /\
        document' =
        Document.set_share_links document
          (dict_set l (ShareLink.set_is_active share_link false)
                    (Document.share_links document))
  | Access_via_share_link l u n1 n2 =>
      exists share_link,
        dict_get l (Document.share_links document) = Some share_link /\
        ShareLink.is_active share_link = true /\
        document' = redeemed document share_link l u n2
  | List_collaborators _ _ => False
  | List_share_links _ _ => False
  end.

(** The call stores a link under [link_id] in [document_id]. *)
Definition creates_link (document_id link_id : UUID) (c : Call) : bool :=
  match c with
  | Create_share_link d _ _ _ i _ =>
      ((d =? document_id) && (i =? link_id))%N
  | _ => false
  end.

(** No call of the sequence stores a link under [link_id] in
    [document_id]: the ids [uuid4()] hands out do not repeat it. *)
Definition never_recreated (document_id link_id : UUID) (calls : list Call)
  : bool :=
  forallb (fun c => negb (creates_link document_id link_id c)) calls.

(** What can become of a stored link: it may have been revoked and it may
    have been redeemed; the rest of it is as it was. *)
Definition link_evolved (l l' : ShareLink.t) : Prop :=
  ShareLink.id l' = ShareLink.id l /\
  ShareLink.document_id l' = ShareLink.document_id l /\
  ShareLink.created_by l' = ShareLink.created_by l /\
  ShareLink.created_at l' = ShareLink.created_at l /\
  ShareLink.expires_at l' = ShareLink.expires_at l /\
  ShareLink.access_role l' = ShareLink.access_role l /\
  (ShareLink.is_active l' = true -> ShareLink.is_active l = true) /\
  (ShareLink.access_count l <= ShareLink.access_count l')%Z.

(** The calls that edit the collaborators of a document. *)
Definition edits_collaborators (c : Call) : bool :=
  match c with
  | Add_collaborator _ _ _ _ _ => true
  | Remove_collaborator _ _ _ => true
  | _ => false
  end.


(* ------------------------------------------------------------------ *)
(** ** export.py

    The exporters read a content dict and a metadata dict, hand a sequence
    of pieces to a third-party library (reportlab, python-docx) and return
    the bytes the library renders.  The embedding keeps what this file
    itself computes: which pieces are handed over, in which order.  The
    libraries are parameters, and what a call of theirs raises on its own
    account (reportlab refusing a paragraph's markup, say) is not modelled.
    The one raise of this file's own code is: [title_para.runs[0]] on a
    title paragraph that has no run.  A content dict is read at the keys
    'text' and 'chapters' only, a chapter at 'title' and 'text', all
    holding strings (lists of chapters), so these dicts are records of
    optional fields; [today] is what
    [datetime.now().strftime('%Y-%m-%d')] gives. *)

Module DocumentExporter.

(** [class ExportFormat(Enum)]. *)
Inductive ExportFormat : Type := PDF | DOCX.

Record Chapter : Type := mkChapter {
  chapter_title : option string;
  chapter_text : option string
}.

Record Content : Type := mkContent {
  content_text : option string;
  content_chapters : option (list Chapter)
}.

Definition Metadata : Type := list (string * string).

(** [d.get(key, default)] on a dict of strings. *)
Fixpoint str_get (key default : string) (d : list (string * string))
  : string :=
  match d with
  | [] => default
  | (k, v) :: d' => if String.eqb key k then v else str_get key default d'
  end.

(** [x.get(key, '')] on an optional field. *)
Definition or_empty (field : option string) : string :=
  match field with
  | Some s => s
  | None => EmptyString
  end.

Definition newline : ascii := "010"%char.

Definition is_newline (c : ascii) : bool := Ascii.eqb c newline.

(** [c.isspace()], for the characters below 256. *)
Definition is_space (c : ascii) : bool :=
  let n := N_of_ascii c in
  (((9 <=? n) && (n <=? 13)) || ((28 <=? n) && (n <=? 32))
   || (n =? 133) || (n =? 160))%N.

(** The truth value of [para.strip()]: some character is not white
    space. *)
Fixpoint has_text (s : string) : bool :=
  match s with
  | EmptyString => false
  | String c rest => negb (is_space c) || has_text rest
  end.

Definition push (c : ascii) (pieces : list string) : list string :=
  match pieces with
  | [] => [String c EmptyString]
  | p :: ps => String c p :: ps
  end.

(** [s.split('\n\n')]: cut at each blank line, leftmost first. *)
Fixpoint split_blank (s : string) : list string :=
  match s with
  | EmptyString => [EmptyString]
  | String c rest =>
      match rest with
      | String c2 rest' =>
          if is_newline c && is_newline c2 then
            EmptyString :: split_blank rest'
          else push c (split_blank rest)
      | EmptyString => push c (split_blank rest)
      end
  end.

(** ['\n\n' in s]. *)
Fixpoint has_blank_line (s : string) : bool :=
  match s with
  | EmptyString => false
  | String c rest =>
      match rest with
      | String c2 _ => (is_newline c && is_newline c2) || has_blank_line rest
      | EmptyString => false
      end
  end.

(** ['\n\n'.join(pieces)]. *)
Fixpoint join_blank (pieces : list string) : string :=
  match pieces with
  | [] => EmptyString
  | [p] => p
  | p :: ps => p ++ String newline (String newline (join_blank ps))
  end.

(** *** The PDF story *)

Inductive Style : Type := CustomTitle | Normal | Heading1 | Justify.

(** What [export_to_pdf] appends to [story]: [Paragraph(text, style)] and
    [Spacer(1, h * inch)], the height [h] kept in tenths of an inch. *)
Inductive Flowable : Type :=
| Paragraph (text : string) (style : Style)
| Spacer (tenths : N).

(** The [if metadata:] block. *)
Definition pdf_header (metadata : option Metadata) (today : string)
  : list Flowable :=
  match metadata with
  | Some ((_ :: _) as m) =>
      let title := str_get "title" "Untitled Document" m in
      let author := str_get "author" "Unknown" m in
      let date := str_get "date" today m in
      [Paragraph title CustomTitle;
       Paragraph ("by " ++ author) Normal;
       Paragraph date Normal;
       Spacer 5]
  | _ => []
  end.

(** The loop over [text.split('\n\n')]. *)
Definition pdf_paragraphs (text : string) : list Flowable :=
  flat_map (fun para =>
              if has_text para then [Paragraph para Justify; Spacer 1]
              else [])
           (split_blank text).

Definition pdf_chapter (chapter : Chapter) : list Flowable :=
  let title := or_empty (chapter_title chapter) in
  let text := or_empty (chapter_text chapter) in
  (match title with
   | EmptyString => []
   | _ => [Paragraph title Heading1; Spacer 2]
   end)
  ++ pdf_paragraphs text ++ [Spacer 3].

Definition pdf_story (content : Content) (metadata : option Metadata)
           (today : string) : list Flowable :=
  let text_content := or_empty (content_text content) in
  let chapters :=
    match content_chapters content with
    | Some l => l
    | None => []
    end in
  pdf_header metadata today
  ++ match chapters with
     | _ :: _ => flat_map pdf_chapter chapters
     | [] => pdf_paragraphs text_content
     end.

(** *** The DOCX document *)

(** The calls [export_to_docx] makes on [doc]. *)
Inductive Block : Type :=
| Title_paragraph (text : string)
    (** [add_paragraph(title)], centred, first run 24pt bold *)
| Centered_paragraph (text : string)
    (** [add_paragraph(text)], centred *)
| Empty_paragraph
    (** [add_paragraph()] *)
| Heading (text : string)
    (** [add_heading(text, level=1)] *)
| Body_paragraph (text : string)
    (** [add_paragraph(para)] *).

Record CoreProperties : Type := mkCore {
  core_title : string;
  core_author : string;
  core_created : datetime
}.

Record Docx : Type := mkDocx {
  blocks : list Block;
  core_properties : option CoreProperties
}.

(** The [if metadata:] block: the blocks it adds, and whether it raised.
    [doc.add_paragraph('')] adds a paragraph without a run, so for an empty
    title [title_para.runs[0]] raises IndexError, the centred empty
    paragraph being all that was added. *)
Definition docx_header (metadata : option Metadata) (today : string)
  : list Block * bool :=
  match metadata with
  | Some ((_ :: _) as m) =>
      let title := str_get "title" "Untitled Document" m in
      let author := str_get "author" "Unknown" m in
      let date := str_get "date" today m in
      match title with
      | EmptyString => ([Centered_paragraph title], true)
      | _ =>
          ([Title_paragraph title;
            Centered_paragraph ("by " ++ author);
            Centered_paragraph date;
            Empty_paragraph], false)
      end
  | _ => ([], false)
  end.

(** [export_to_docx] raises IndexError. *)
Definition docx_raises (metadata : option Metadata) (today : string)
  : bool := snd (docx_header metadata today).

Definition docx_paragraphs (text : string) : list Block :=
  flat_map (fun para => if has_text para then [Body_paragraph para] else [])
           (split_blank text).

Definition docx_chapter (chapter : Chapter) : list Block :=
  let title := or_empty (chapter_title chapter) in
  let text := or_empty (chapter_text chapter) in
  (match title with
   | EmptyString => []
   | _ => [Heading title]
   end)
  ++ docx_paragraphs text ++ [Empty_paragraph].

(** [doc] as it stands when [export_to_docx] saves it, or when the
    header raises. *)
Definition docx_document (content : Content) (metadata : option Metadata)
           (today : string) (now : datetime) : Docx :=
  let text_content := or_empty (content_text content) in
  let chapters :=
    match content_chapters content with
    | Some l => l
    | None => []
    end in
  let (header, raised) := docx_header metadata today in
  if raised then mkDocx header None
  else
    mkDocx
      (header
       ++ match chapters with
          | _ :: _ => flat_map docx_chapter chapters
          | [] => docx_paragraphs text_content
          end)
      (match metadata with
       | Some ((_ :: _) as m) =>
           Some (mkCore (str_get "title" "" m) (str_get "author" "" m) now)
       | _ => None
       end).

(** What an exporter call gives: the rendered bytes, or the IndexError. *)
Inductive Exported (Bytes : Type) : Type :=
| Rendered (data : Bytes)
| Raises_IndexError.

Arguments Rendered {Bytes} data.
Arguments Raises_IndexError {Bytes}.

(** *** The exporters, over the two libraries *)

Section Renderers.
Variable Bytes : Type.
(** [doc.build(story)] followed by [buffer.getvalue()]. *)
Variable build_pdf : list Flowable -> Bytes.
(** [doc.save(buffer)] followed by [buffer.getvalue()]. *)
Variable save_docx : Docx -> Bytes.

Definition export_to_pdf (content : Content) (metadata : option Metadata)
           (today : string) : Bytes :=
  build_pdf (pdf_story content metadata today).

Definition export_to_docx (content : Content) (metadata : option Metadata)
           (today : string) (now : datetime) : Exported Bytes :=
  if docx_raises metadata today then Raises_IndexError
  else Rendered (save_docx (docx_document content metadata today now)).

(** [export]: a member of [ExportFormat] never reaches the [else]. *)
Definition export (content : Content) (format : ExportFormat)
           (metadata : option Metadata) (today : string) (now : datetime)
  : Exported Bytes :=
  match format with
  | PDF => Rendered (export_to_pdf content metadata today)
  | DOCX => export_to_docx content metadata today now
  end.
End Renderers.

(** The chapters the exporters loop over. *)
Definition chapters_of (content : Content) : list Chapter :=
  match content_chapters content with
  | Some l => l
  | None => []
  end.

(** A sample: the content of the module's tests. *)
Definition sample_content : Content :=
  mkContent
    (Some "ignored"%string)
    (Some [mkChapter (Some "Chapter 1"%string)
                     (Some "Once upon a time, in a land far away..."%string);
           mkChapter (Some "Chapter 2"%string)
                     (Some "The adventure continued."%string)]).

Definition sample_metadata : Metadata :=
  [("title", "Sample Story"); ("author", "Test Author");
   ("date", "2024-10-24")]%string.

End DocumentExporter.


(* ================================================================== *)
(** * Properties *)

Unset Implicit Arguments.

(* ------------------------------------------------------------------ *)
(** ** The role parser *)

Lemma all_ascii_complete (a : ascii) : In a PyStr.all_ascii.
Proof.
  unfold PyStr.all_ascii.
  rewrite <- (ascii_nat_embedding a).
  apply in_map, in_seq.
  pose proof (nat_ascii_bounded a). lia.
Qed.

(** Matching up to case is comparing the lower-cased characters. *)
Lemma char_eq_nocase_lower (a b : ascii) :
  PyStr.char_eq_nocase a b =
  Ascii.eqb (PyStr.lower_char a) (PyStr.lower_char b).
Proof.
  assert (H : forallb (fun x =>
                forallb (fun y =>
                  Bool.eqb (PyStr.char_eq_nocase x y)
                           (Ascii.eqb (PyStr.lower_char x)
                                      (PyStr.lower_char y)))
                  PyStr.all_ascii) PyStr.all_ascii = true)
    by (vm_compute; reflexivity).
  rewrite forallb_forall in H.
  specialize (H a (all_ascii_complete a)).
  rewrite forallb_forall in H.
  specialize (H b (all_ascii_complete b)).
  now apply Bool.eqb_prop in H.
Qed.

Lemma eq_nocase_lower (s t : string) :
  PyStr.eq_nocase s t = String.eqb (PyStr.lower s) (PyStr.lower t).
Proof.
  revert t. induction s as [|a s IH]; intros [|b t]; simpl; try reflexivity.
  rewrite char_eq_nocase_lower, IH.
  destruct (Ascii.eqb _ _); reflexivity.
Qed.

Lemma Role_value_lower (r : Role) : PyStr.lower (Role_value r) = Role_value r.
Proof. destruct r; reflexivity. Qed.

(** The test [role.value == normalized] of the loop is the match up to
    case of the input against the role's name. *)
Lemma role_test_nocase (value : string) (r : Role) :
  String.eqb (Role_value r) (PyStr.lower value) =
  PyStr.eq_nocase value (Role_value r).
Proof.
  rewrite eq_nocase_lower, Role_value_lower. apply String.eqb_sym.
Qed.

Lemma role_from_str_matching (value : string) :
  role_from_str value =
  match role_matching_nocase value with
  | Some r => Returns r
  | None => Raises (Unsupported_role value)
  end.
Proof.
  unfold role_from_str, role_matching_nocase, Role_members.
  cbv zeta. cbn [find].
  now rewrite !role_test_nocase.
Qed.

(** The three names are pairwise different, also up to case. *)
Lemma role_names_apart (value : string) (r r' : Role) :
  PyStr.eq_nocase value (Role_value r) = true ->
  PyStr.eq_nocase value (Role_value r') = true ->
  r = r'.
Proof.
  rewrite !eq_nocase_lower, !Role_value_lower, !String.eqb_eq.
  intros -> E. destruct r, r'; (reflexivity || discriminate E).
Qed.

(** C9. Parsing a role's own name gives the role back; the parser returns
    the role whose name the input matches up to letter case, so every
    spelling of "owner", "editor" or "viewer" in mixed case is accepted;
    every other string, "admin" among them, raises the unsupported-role
    error (kind InvalidRole). *)
Theorem role_from_str_round_trip :
  (forall r, role_from_str (Role_value r) = Returns r) /\
  (forall value r,
      PyStr.eq_nocase value (Role_value r) = true ->
      role_from_str value = Returns r) /\
  (forall value,
      (forall r, PyStr.eq_nocase value (Role_value r) = false) ->
      role_from_str value = Raises (Unsupported_role value) /\
      error_kind (Unsupported_role value) = InvalidRole) /\
  role_from_str "admin" = Raises (Unsupported_role "admin").
Proof.
  split; [| split; [| split]].
  - intros []; reflexivity.
  - intros value r H. rewrite role_from_str_matching.
    unfold role_matching_nocase, Role_members. simpl.
    destruct (PyStr.eq_nocase value "owner") eqn:Eo.
    { f_equal. apply (role_names_apart value); assumption. }
    destruct (PyStr.eq_nocase value "editor") eqn:Ee.
    { f_equal. apply (role_names_apart value); assumption. }
    destruct (PyStr.eq_nocase value "viewer") eqn:Ev.
    { f_equal. apply (role_names_apart value); assumption. }
    destruct r; simpl in H; congruence.
  - intros value H. split; [| reflexivity].
    rewrite role_from_str_matching.
    unfold role_matching_nocase, Role_members. simpl.
    pose proof (H OWNER) as Ho. pose proof (H EDITOR) as He.
    pose proof (H VIEWER) as Hv. simpl in Ho, He, Hv.
    now rewrite Ho, He, Hv.
  - reflexivity.
Qed.

Lemma role_from_str_round_trip_witness :
  PyStr.eq_nocase "EdItOr" (Role_value EDITOR) = true /\
  role_from_str "EdItOr" = Returns EDITOR /\
  (forall r, PyStr.eq_nocase "admin" (Role_value r) = false) /\
  role_from_str "admin" = Raises (Unsupported_role "admin").
Proof.
  split; [reflexivity |].
  split; [apply (proj1 (proj2 role_from_str_round_trip)); reflexivity |].
  assert (H : forall r, PyStr.eq_nocase "admin" (Role_value r) = false)
    by (intros []; reflexivity).
  split; [exact H |].
  exact (proj1 (proj1 (proj2 (proj2 role_from_str_round_trip)) "admin"%string H)).
Defined.

(* ------------------------------------------------------------------ *)
(** ** The grant table *)

(** C3. The grant table is fixed and total: owner is granted every
    permission, editor exactly view and edit, viewer exactly view; so
    every role has a non-empty set that contains view, the sets grow from
    viewer to editor to owner, and an absent role is granted nothing. *)
Theorem grant_table :
  (forall p, can OWNER p = true) /\
  (forall p, can EDITOR p = true <-> (p = VIEW \/ p = EDIT)) /\
  (forall p, can VIEWER p = true <-> p = VIEW) /\
  (forall r, can r VIEW = true /\ _ROLE_PERMISSIONS r <> []) /\
  (forall p, can VIEWER p = true -> can EDITOR p = true) /\
  (forall p, can EDITOR p = true -> can OWNER p = true) /\
  (forall p, has_permission None p = false).
Proof.
  split; [intros []; reflexivity |].
  split.
  { intros p; split.
    - destruct p; intros H; auto; discriminate H.
    - intros [-> | ->]; reflexivity. }
  split.
  { intros p; split.
    - destruct p; intros H; auto; discriminate H.
    - intros ->; reflexivity. }
  split; [intros []; (split; [reflexivity | discriminate]) |].
  split; [intros [] H; (reflexivity || discriminate H) |].
  split; [intros [] H; (reflexivity || discriminate H) |].
  intros p; reflexivity.
Qed.

Lemma grant_table_witness :
  can VIEWER VIEW = true /\ can EDITOR VIEW = true /\ can OWNER VIEW = true.
Proof.
  pose proof grant_table as (_ & _ & _ & _ & Hve & Heo & _).
  assert (Hv : can VIEWER VIEW = true) by reflexivity.
  split; [exact Hv |].
  split; [exact (Hve VIEW Hv) | exact (Heo VIEW (Hve VIEW Hv))].
Defined.

(* ------------------------------------------------------------------ *)
(** ** Dictionaries *)

Section PyDictFacts.
Variable V : Type.
Implicit Types (d : pydict V) (k : UUID) (v : V).

Lemma dict_get_set_same k v d : dict_get k (dict_set k v d) = Some v.
Proof.
  induction d as [|[k' v'] d IH]; simpl.
  - now rewrite N.eqb_refl.
  - destruct (N.eqb_spec k k') as [->|Hne]; simpl.
    + now rewrite N.eqb_refl.
    + destruct (N.eqb_spec k k'); [contradiction | exact IH].
Qed.

Lemma dict_get_set_other k k' v d :
  k' <> k -> dict_get k' (dict_set k v d) = dict_get k' d.
Proof.
  intros Hne. induction d as [|[k0 v0] d IH]; simpl.
  - destruct (N.eqb_spec k' k); [contradiction | reflexivity].
  - destruct (N.eqb_spec k k0) as [->|Hk]; simpl.
    + destruct (N.eqb_spec k' k0); [contradiction | reflexivity].
    + destruct (N.eqb_spec k' k0); [reflexivity | exact IH].
Qed.

(** Writing the same key twice is writing the last value once. *)
Lemma dict_set_twice k v v' d :
  dict_set k v (dict_set k v' d) = dict_set k v d.
Proof.
  induction d as [|[k0 v0] d IH]; simpl.
  - now rewrite N.eqb_refl.
  - destruct (N.eqb_spec k k0) as [->|Hk]; simpl.
    + now rewrite N.eqb_refl.
    + destruct (N.eqb_spec k k0); [contradiction | now rewrite IH].
Qed.

(** Writing back what is stored changes nothing. *)
Lemma dict_set_same k v d : dict_get k d = Some v -> dict_set k v d = d.
Proof.
  induction d as [|[k0 v0] d IH]; simpl; [discriminate |].
  destruct (N.eqb_spec k k0) as [->|Hk].
  - now intros [= ->].
  - intros H. now rewrite IH.
Qed.

Lemma dict_get_del_absent k k' d :
  dict_get k' d = None -> dict_get k' (dict_del k d) = None.
Proof.
  induction d as [|[k0 v0] d IH]; simpl; [reflexivity |].
  destruct (N.eqb_spec k' k0) as [->|Hk']; [discriminate |].
  intros H. destruct (N.eqb_spec k k0) as [->|Hk]; simpl.
  - exact H.
  - destruct (N.eqb_spec k' k0); [contradiction | now apply IH].
Qed.

Lemma dict_get_In k v d : dict_get k d = Some v -> In (k, v) d.
Proof.
  induction d as [|[k0 v0] d IH]; simpl; [discriminate |].
  destruct (N.eqb_spec k k0) as [->|Hk].
  - intros [= ->]. now left.
  - intros H. right. now apply IH.
Qed.

Lemma dict_get_None_In k v d : dict_get k d = None -> ~ In (k, v) d.
Proof.
  induction d as [|[k0 v0] d IH]; simpl; [tauto |].
  destruct (N.eqb_spec k k0) as [->|Hk]; [discriminate |].
  intros H [[= -> ->]|Hin]; [congruence | now apply IH].
Qed.

(** In a dict, an entry is what its key looks up. *)
Lemma dict_wf_In_get k v d :
  dict_wf d = true -> In (k, v) d -> dict_get k d = Some v.
Proof.
  induction d as [|[k0 v0] d IH]; simpl; [tauto |].
  rewrite andb_true_iff, negb_true_iff. intros [Hk0 Hwf] [[= -> ->]|Hin].
  - now rewrite N.eqb_refl.
  - destruct (N.eqb_spec k k0) as [->|Hk]; [| now apply IH].
    unfold dict_mem in Hk0. rewrite (IH Hwf Hin) in Hk0. discriminate.
Qed.

Lemma dict_mem_set k k' v d :
  dict_mem k' (dict_set k v d) = (k' =? k)%N || dict_mem k' d.
Proof.
  unfold dict_mem. destruct (N.eqb_spec k' k) as [->|Hne]; simpl.
  - now rewrite dict_get_set_same.
  - now rewrite dict_get_set_other.
Qed.

Lemma dict_wf_set k v d : dict_wf d = true -> dict_wf (dict_set k v d) = true.
Proof.
  induction d as [|[k0 v0] d IH]; simpl; [reflexivity |].
  rewrite andb_true_iff, negb_true_iff. intros [Hk0 Hwf].
  destruct (N.eqb_spec k k0) as [->|Hk]; simpl.
  - now rewrite Hk0, Hwf.
  - rewrite dict_mem_set, Hk0, IH by assumption.
    destruct (N.eqb_spec k0 k); [congruence | reflexivity].
Qed.

End PyDictFacts.

(* ------------------------------------------------------------------ *)
(** ** The gate *)

(** A missing document gives no role, hence no permission at all. *)
Lemma check_permission_absent self user_id document_id permission :
  dict_get document_id (documents self) = None ->
  check_permission self user_id document_id permission = false.
Proof.
  intros H. unfold check_permission, get_user_role. now rewrite H.
Qed.

(** Whoever passes a check does so on a registered document. *)
Lemma check_permission_document self user_id document_id permission :
  check_permission self user_id document_id permission = true ->
  exists document, dict_get document_id (documents self) = Some document.
Proof.
  unfold check_permission, get_user_role.
  destruct (dict_get document_id (documents self)) as [d|];
    [eauto | discriminate].
Qed.

Lemma add_collaborator_refused self document_id user_id role actor now :
  check_permission self actor document_id MANAGE = false ->
  refused (add_collaborator document_id user_id role actor now)
          actor document_id self.
Proof. intros H. unfold refused. unfold_method. now rewrite H. Qed.

Lemma remove_collaborator_refused self document_id user_id actor :
  check_permission self actor document_id MANAGE = false ->
  refused (remove_collaborator document_id user_id actor)
          actor document_id self.
Proof. intros H. unfold refused. unfold_method. now rewrite H. Qed.

Lemma create_share_link_refused self document_id actor role expires new_id
      now :
  check_permission self actor document_id MANAGE = false ->
  refused (create_share_link document_id actor role expires new_id now)
          actor document_id self.
Proof. intros H. unfold refused. unfold_method. now rewrite H. Qed.

Lemma revoke_share_link_refused self document_id link_id actor :
  check_permission self actor document_id MANAGE = false ->
  refused (revoke_share_link document_id link_id actor)
          actor document_id self.
Proof. intros H. unfold refused. unfold_method. now rewrite H. Qed.

Lemma list_share_links_refused self document_id actor :
  check_permission self actor document_id MANAGE = false ->
  refused (list_share_links document_id actor) actor document_id self.
Proof. intros H. unfold refused. unfold_method. now rewrite H. Qed.

Lemma gate_closed self actor document_id :
  check_permission self actor document_id MANAGE = false ->
  all_refused self actor document_id.
Proof.
  intros H. unfold all_refused. repeat split; intros.
  - now apply add_collaborator_refused.
  - now apply remove_collaborator_refused.
  - now apply create_share_link_refused.
  - now apply revoke_share_link_refused.
  - now apply list_share_links_refused.
Qed.

(** Past the gate the document is there, so its lookup cannot fail. *)
Lemma gate_open_never_document_not_found self actor document_id :
  never_document_not_found self actor document_id.
Proof.
  unfold never_document_not_found, outcome.
  destruct (check_permission self actor document_id MANAGE) eqn:Hc.
  - destruct (check_permission_document _ _ _ _ Hc) as [d Hd].
    repeat split; intros; unfold_method; rewrite Hc; simpl; rewrite Hd; simpl.
    + destruct (dict_mem user_id (users self)); simpl; [| discriminate].
      destruct (user_id =? Document.owner_id d)%N; discriminate.
    + destruct (dict_mem user_id (Document.collaborators d)); discriminate.
    + discriminate.
    + destruct (dict_get link_id (Document.share_links d)); discriminate.
    + discriminate.
  - destruct (gate_closed _ _ _ Hc) as (Ha & Hr & Hs & Hv & Hl).
    unfold refused in *.
    repeat split; intros;
      [rewrite Ha | rewrite Hr | rewrite Hs | rewrite Hv | rewrite Hl];
      discriminate.
Qed.

(** C1. The code at the failing input.  In the scenario document 99 is
    not registered.  Called on it by user 1, each of add_collaborator,
    remove_collaborator, create_share_link, revoke_share_link and
    list_share_links raises the PermissionError of the gate (kind
    Forbidden) and leaves the state alone, where the claim, the methods'
    docstrings and their own raise of "Document 99 not found" (kind
    NotFound) call for the not-found error. *)
Theorem absent_document_raises_permission_error :
  dict_get 99 (documents scenario) = None /\
  add_collaborator 99 2 VIEWER 1 0 scenario =
  (Raises (Lacks_permission 1 MANAGE 99), scenario) /\
  remove_collaborator 99 2 1 scenario =
  (Raises (Lacks_permission 1 MANAGE 99), scenario) /\
  create_share_link 99 1 VIEWER None 77 0 scenario =
  (Raises (Lacks_permission 1 MANAGE 99), scenario) /\
  revoke_share_link 99 77 1 scenario =
  (Raises (Lacks_permission 1 MANAGE 99), scenario) /\
  list_share_links 99 1 scenario =
  (Raises (Lacks_permission 1 MANAGE 99), scenario) /\
  exception_class (Lacks_permission 1 MANAGE 99) = PermissionError /\
  error_kind (Lacks_permission 1 MANAGE 99) = Forbidden /\
  exception_class (Document_not_found 99) = ValueError /\
  error_kind (Document_not_found 99) = NotFound.
Proof. repeat split. Qed.

(** At that input no error of kind NotFound is raised. *)
Lemma absent_document_not_reported_NotFound :
  dict_get 99 (documents scenario) = None /\
  ~ (exists e,
        outcome (add_collaborator 99 2 VIEWER 1 0) scenario = Raises e /\
        error_kind e = NotFound).
Proof.
  split; [reflexivity |].
  intros (e & He & Hk). vm_compute in He.
  injection He as <-. discriminate Hk.
Qed.

(** What the gate does for a document that is not registered: each of
    the five manage-gated methods raises the permission error (kind
    Forbidden) for every acting user and leaves the state alone, an absent
    document giving the actor no role.  The lookup that would report the
    document as not found comes after the gate. *)
Theorem absent_document_refused :
  forall self actor document_id,
    dict_get document_id (documents self) = None ->
    all_refused self actor document_id /\
    error_kind (Lacks_permission actor MANAGE document_id) = Forbidden.
Proof.
  intros self actor document_id H.
  split; [| reflexivity].
  apply gate_closed. now apply check_permission_absent.
Qed.

Lemma absent_document_refused_witness :
  dict_get 99 (documents scenario) = None /\
  refused (add_collaborator 99 2 VIEWER 1 0) 1 99 scenario.
Proof.
  assert (H : dict_get 99 (documents scenario) = None) by reflexivity.
  split; [exact H |].
  exact (proj1 (proj1 (absent_document_refused scenario 1 99 H)) 2%N VIEWER 0%Z).
Defined.

(** States that differ in users and share links only give every user the
    same role on every document. *)
Lemma get_user_role_same_but_targets s1 s2 user_id document_id :
  same_but_targets s1 s2 ->
  get_user_role s1 user_id document_id = get_user_role s2 user_id document_id.
Proof.
  unfold same_but_targets, get_user_role.
  generalize (documents s1) (documents s2).
  induction 1 as [|[k1 d1] [k2 d2] l1 l2 [Hk Hd] _ IH]; simpl in *;
    [reflexivity |].
  subst k2. destruct (N.eqb_spec document_id k1); [| exact IH].
  pose proof (f_equal Document.owner_id Hd) as Ho.
  pose proof (f_equal Document.collaborators Hd) as Hc.
  simpl in Ho, Hc. now rewrite Ho, Hc.
Qed.

(** C2. An actor without MANAGE on a document is refused by each of the
    five manage-gated operations with the permission error, whatever the
    target user or link, registered or not; and in two states that differ
    only in the registered users and the share links held, the outcome of
    each of these calls is the same. *)
Theorem manage_gate_before_targets :
  forall s1 s2 actor document_id,
    check_permission s1 actor document_id MANAGE = false ->
    same_but_targets s1 s2 ->
    all_refused s1 actor document_id /\
    all_refused s2 actor document_id /\
    same_outcomes s1 s2 actor document_id.
Proof.
  intros s1 s2 actor document_id H1 Hs.
  assert (H2 : check_permission s2 actor document_id MANAGE = false).
  { unfold check_permission in *.
    now rewrite <- (get_user_role_same_but_targets s1 s2 actor document_id Hs). }
  pose proof (gate_closed _ _ _ H1) as R1.
  pose proof (gate_closed _ _ _ H2) as R2.
  split; [exact R1 | split; [exact R2 |]].
  destruct R1 as (A1 & B1 & C1 & D1 & E1), R2 as (A2 & B2 & C2 & D2 & E2).
  unfold same_outcomes, outcome, refused in *.
  repeat split; intros.
  - now rewrite A1, A2.
  - now rewrite B1, B2.
  - now rewrite C1, C2.
  - now rewrite D1, D2.
  - now rewrite E1, E2.
Qed.

Lemma manage_gate_before_targets_witness :
  check_permission scenario 2 10 MANAGE = false /\
  same_but_targets scenario scenario_linked /\
  outcome (revoke_share_link 10 77 2) scenario =
  outcome (revoke_share_link 10 77 2) scenario_linked.
Proof.
  assert (H : check_permission scenario 2 10 MANAGE = false) by reflexivity.
  assert (Hs : same_but_targets scenario scenario_linked).
  { repeat constructor. }
  split; [exact H | split; [exact Hs |]].
  destruct (manage_gate_before_targets scenario scenario_linked 2 10 H Hs)
    as (_ & _ & (_ & _ & _ & Hv & _)).
  exact (Hv 77%N).
Defined.

(* ------------------------------------------------------------------ *)
(** ** Redemption of share links *)

(** What the scan does, read off the global lookup. *)
Lemma access_scan_eq link_id user_id now_check now_touch items self :
  access_scan link_id user_id now_check now_touch items self =
  match find_share_link link_id items with
  | None => (Raises (Share_link_not_found link_id), self)
  | Some (key, document, share_link) =>
      if negb (ShareLink.is_active share_link) then
        (Raises (Share_link_inactive link_id), self)
      else if has_expired share_link now_check then
        (Raises (Share_link_expired link_id), self)
      else
        let document' :=
          redeemed document share_link link_id user_id now_touch in
        (Returns (document', ShareLink.access_role share_link),
         mkManager (dict_set key document' (documents self)) (users self))
  end.
Proof.
  induction items as [|[key document] rest IH]; simpl; [reflexivity |].
  destruct (dict_get link_id (Document.share_links document)) as [l|];
    [| exact IH].
  destruct (ShareLink.is_active l); simpl; [| reflexivity].
  destruct (has_expired l now_check); [reflexivity |].
  unfold redeemed, bind, write_document, ret; simpl.
  destruct user_id as [uid|]; [| reflexivity].
  destruct (dict_get uid (Document.collaborators document)) as [c|]; simpl;
    [| reflexivity].
  now rewrite dict_set_twice.
Qed.

Lemma access_via_share_link_eq link_id user_id now_check now_touch self :
  access_via_share_link link_id user_id now_check now_touch self =
  access_scan link_id user_id now_check now_touch (documents self) self.
Proof. reflexivity. Qed.

Lemma find_share_link_None link_id items :
  find_share_link link_id items = None <->
  (forall key document,
      In (key, document) items ->
      dict_get link_id (Document.share_links document) = None).
Proof.
  induction items as [|[k d] rest IH]; simpl.
  - split; [intros _ ? ? [] | reflexivity].
  - destruct (dict_get link_id (Document.share_links d)) as [l|] eqn:E.
    + split; [discriminate |]. intros H.
      specialize (H k d (or_introl eq_refl)). congruence.
    + rewrite IH. split.
      * intros H key document [[= <- <-]|Hin];
          [exact E | exact (H key document Hin)].
      * intros H key document Hin. apply (H key document). now right.
Qed.

Lemma find_share_link_Some link_id items key document share_link :
  find_share_link link_id items = Some (key, document, share_link) ->
  In (key, document) items /\
  dict_get link_id (Document.share_links document) = Some share_link.
Proof.
  induction items as [|[k d] rest IH]; simpl; [discriminate |].
  destruct (dict_get link_id (Document.share_links d)) as [l|] eqn:E.
  - intros [= <- <- <-]. split; [now left | exact E].
  - intros H. destruct (IH H). split; [now right | assumption].
Qed.

(** The document a redemption leaves: same identity, same links but for
    the redeemed one, whose counter went up by one. *)
Lemma redeemed_share_links document share_link link_id user_id now_touch :
  Document.share_links
    (redeemed document share_link link_id user_id now_touch) =
  dict_set link_id
    (ShareLink.set_access_count share_link
       (ShareLink.access_count share_link + 1))
    (Document.share_links document).
Proof.
  unfold redeemed. destruct user_id as [uid|]; [| reflexivity]. simpl.
  destruct (dict_get uid (Document.collaborators document)); reflexivity.
Qed.

Lemma redeemed_identity document share_link link_id user_id now_touch :
  Document.id (redeemed document share_link link_id user_id now_touch) =
  Document.id document /\
  Document.owner_id (redeemed document share_link link_id user_id now_touch) =
  Document.owner_id document.
Proof.
  unfold redeemed. destruct user_id as [uid|]; [| split; reflexivity]. simpl.
  destruct (dict_get uid (Document.collaborators document));
    split; reflexivity.
Qed.

(** A redemption stamps a collaborator record, it never adds a key. *)
Lemma redeemed_collaborators_mem document share_link link_id user_id
      now_touch uid :
  dict_mem uid
    (Document.collaborators
       (redeemed document share_link link_id user_id now_touch)) =
  dict_mem uid (Document.collaborators document).
Proof.
  unfold redeemed. destruct user_id as [caller|]; [| reflexivity]. simpl.
  destruct (dict_get caller (Document.collaborators document)) as [c|] eqn:E;
    [| reflexivity].
  simpl. rewrite dict_mem_set.
  destruct (N.eqb_spec uid caller) as [->|]; [| reflexivity].
  unfold dict_mem. now rewrite E.
Qed.

(* ------------------------------------------------------------------ *)
(** ** Failure leaves the state alone *)

Lemma add_collaborator_atomic d u r a now :
  atomic_on_failure (add_collaborator d u r a now).
Proof.
  intros self e self' H. unfold_method_in H.
  destruct (check_permission self a d MANAGE); simpl in H;
    [| now inversion H].
  destruct (dict_get d (documents self)); simpl in H; [| now inversion H].
  destruct (dict_mem u (users self)); simpl in H; [| now inversion H].
  destruct (u =? _)%N; simpl in H; [now inversion H | discriminate H].
Qed.

Lemma remove_collaborator_atomic d u a :
  atomic_on_failure (remove_collaborator d u a).
Proof.
  intros self e self' H. unfold_method_in H.
  destruct (check_permission self a d MANAGE); simpl in H;
    [| now inversion H].
  destruct (dict_get d (documents self)) as [doc|]; simpl in H;
    [| now inversion H].
  destruct (dict_mem u (Document.collaborators doc)); simpl in H;
    [discriminate H | now inversion H].
Qed.

Lemma create_share_link_atomic d a r e i now :
  atomic_on_failure (create_share_link d a r e i now).
Proof.
  intros self x self' H. unfold_method_in H.
  destruct (check_permission self a d MANAGE); simpl in H;
    [| now inversion H].
  destruct (dict_get d (documents self)); simpl in H;
    [discriminate H | now inversion H].
Qed.

Lemma revoke_share_link_atomic d l a :
  atomic_on_failure (revoke_share_link d l a).
Proof.
  intros self e self' H. unfold_method_in H.
  destruct (check_permission self a d MANAGE); simpl in H;
    [| now inversion H].
  destruct (dict_get d (documents self)) as [doc|]; simpl in H;
    [| now inversion H].
  destruct (dict_get l (Document.share_links doc)); simpl in H;
    [discriminate H | now inversion H].
Qed.

Lemma access_via_share_link_atomic l u n1 n2 :
  atomic_on_failure (access_via_share_link l u n1 n2).
Proof.
  intros self e self' H.
  rewrite access_via_share_link_eq, access_scan_eq in H.
  destruct (find_share_link l (documents self)) as [[[key doc] link]|];
    [| now inversion H].
  destruct (negb (ShareLink.is_active link)); [now inversion H |].
  destruct (has_expired link n1); [now inversion H | discriminate H].
Qed.

Lemma list_collaborators_atomic d u :
  atomic_on_failure (list_collaborators d u).
Proof.
  intros self e self' H. unfold_method_in H.
  destruct (check_permission self u d VIEW); simpl in H;
    [| now inversion H].
  destruct (dict_get d (documents self)); simpl in H;
    [discriminate H | now inversion H].
Qed.

Lemma list_share_links_atomic d u :
  atomic_on_failure (list_share_links d u).
Proof.
  intros self e self' H. unfold_method_in H.
  destruct (check_permission self u d MANAGE); simpl in H;
    [| now inversion H].
  destruct (dict_get d (documents self)); simpl in H;
    [discriminate H | now inversion H].
Qed.

(** C4. Each of the seven operations of the collaboration core is atomic
    on failure: whenever a call raises, the state after the call is the
    state before it. *)
Theorem failure_changes_nothing :
  (forall d u r a now, atomic_on_failure (add_collaborator d u r a now)) /\
  (forall d u a, atomic_on_failure (remove_collaborator d u a)) /\
  (forall d a r e i now,
      atomic_on_failure (create_share_link d a r e i now)) /\
  (forall d l a, atomic_on_failure (revoke_share_link d l a)) /\
  (forall l u n1 n2, atomic_on_failure (access_via_share_link l u n1 n2)) /\
  (forall d u, atomic_on_failure (list_collaborators d u)) /\
  (forall d u, atomic_on_failure (list_share_links d u)).
Proof.
  repeat split; intros.
  - apply add_collaborator_atomic.
  - apply remove_collaborator_atomic.
  - apply create_share_link_atomic.
  - apply revoke_share_link_atomic.
  - apply access_via_share_link_atomic.
  - apply list_collaborators_atomic.
  - apply list_share_links_atomic.
Qed.

Lemma failure_changes_nothing_witness :
  add_collaborator 10 1 EDITOR 1 0 scenario =
  (Raises Cannot_add_owner,
   state_after (add_collaborator 10 1 EDITOR 1 0) scenario) /\
  state_after (add_collaborator 10 1 EDITOR 1 0) scenario = scenario.
Proof.
  assert (H : add_collaborator 10 1 EDITOR 1 0 scenario =
              (Raises Cannot_add_owner,
               state_after (add_collaborator 10 1 EDITOR 1 0) scenario))
    by reflexivity.
  split; [exact H |].
  exact (proj1 failure_changes_nothing 10%N 1%N EDITOR 1%N 0%Z
               scenario Cannot_add_owner _ H).
Defined.

(* ------------------------------------------------------------------ *)
(** ** How a redemption fails *)

(** C7. A redemption fails with an error of kind NotFound exactly when no
    registered document holds a link with that id.  When the lookup finds
    a link that is not active the call raises the inactive-link error,
    whatever the link's expiry; when it finds an active link whose expiry
    is set and strictly before now, it raises the expired-link error. *)
Theorem redemption_failures :
  forall self link_id user_id now_check now_touch,
    ((exists e,
         outcome (access_via_share_link link_id user_id now_check now_touch)
                 self = Raises e /\
         error_kind e = NotFound) <->
     link_unknown link_id self) /\
    (link_unknown link_id self ->
     access_via_share_link link_id user_id now_check now_touch self =
     (Raises (Share_link_not_found link_id), self)) /\
    (forall key document share_link,
        find_share_link link_id (documents self) =
        Some (key, document, share_link) ->
        ShareLink.is_active share_link = false ->
        access_via_share_link link_id user_id now_check now_touch self =
        (Raises (Share_link_inactive link_id), self) /\
        error_kind (Share_link_inactive link_id) = LinkInactive) /\
    (forall key document share_link expires_at,
        find_share_link link_id (documents self) =
        Some (key, document, share_link) ->
        ShareLink.is_active share_link = true ->
        ShareLink.expires_at share_link = Some expires_at ->
        (expires_at < now_check)%Z ->
        access_via_share_link link_id user_id now_check now_touch self =
        (Raises (Share_link_expired link_id), self) /\
        error_kind (Share_link_expired link_id) = LinkExpired).
Proof.
  intros self link_id user_id now_check now_touch.
  unfold outcome, link_unknown.
  rewrite access_via_share_link_eq, access_scan_eq.
  rewrite <- find_share_link_None.
  split; [| split; [| split]].
  - destruct (find_share_link link_id (documents self))
      as [[[key doc] link]|]; simpl.
    + split; [| discriminate]. intros (e & He & Hk).
      destruct (ShareLink.is_active link); simpl in He;
        [destruct (has_expired link now_check); simpl in He |];
        try discriminate He; injection He as <-; discriminate Hk.
    + split; [reflexivity |]. intros _. eexists. split; reflexivity.
  - intros ->. reflexivity.
  - intros key document share_link -> Hact. rewrite Hact. simpl.
    split; reflexivity.
  - intros key document share_link expires_at -> Hact Hexp Hlt.
    rewrite Hact. simpl. unfold has_expired. rewrite Hexp.
    apply Z.ltb_lt in Hlt. rewrite Hlt. split; reflexivity.
Qed.

Lemma redemption_failures_witness :
  link_unknown 77 scenario /\
  access_via_share_link 77 None 8 8 scenario =
  (Raises (Share_link_not_found 77), scenario) /\
  access_via_share_link 77 (Some 2%N) 8 8 scenario_revoked =
  (Raises (Share_link_inactive 77), scenario_revoked) /\
  access_via_share_link 78 None 8 8 scenario_expiring =
  (Raises (Share_link_expired 78), scenario_expiring).
Proof.
  assert (Hu : link_unknown 77 scenario)
    by (unfold link_unknown; apply find_share_link_None; reflexivity).
  split; [exact Hu |].
  split;
    [exact (proj1 (proj2 (redemption_failures scenario 77%N None 8%Z 8%Z))
                  Hu) |].
  split.
  - refine (proj1 (proj1 (proj2 (proj2
              (redemption_failures scenario_revoked 77%N (Some 2%N) 8%Z 8%Z)))
              _ _ _ eq_refl eq_refl)).
  - refine (proj1 (proj2 (proj2 (proj2
              (redemption_failures scenario_expiring 78%N None 8%Z 8%Z)))
              _ _ _ 5%Z eq_refl eq_refl eq_refl _)).
    reflexivity.
Defined.

(* ------------------------------------------------------------------ *)
(** ** Counting redemptions *)

(** Writing a document that holds the link, at the key the lookup found,
    makes the lookup find the written document. *)
Lemma find_share_link_written link_id items key d l d' l' :
  find_share_link link_id items = Some (key, d, l) ->
  dict_get key items = Some d ->
  dict_get link_id (Document.share_links d') = Some l' ->
  find_share_link link_id (dict_set key d' items) = Some (key, d', l').
Proof.
  intros Hf Hg Hl'. induction items as [|[k0 d0] rest IH]; simpl in *;
    [discriminate |].
  destruct (dict_get link_id (Document.share_links d0)) as [l0|] eqn:E0.
  - injection Hf as -> -> ->. rewrite N.eqb_refl. simpl. now rewrite Hl'.
  - destruct (N.eqb_spec key k0) as [->|Hne].
    + injection Hg as ->.
      destruct (find_share_link_Some _ _ _ _ _ Hf) as [_ Hd]. congruence.
    + simpl. rewrite E0. now apply IH.
Qed.

(** The same for a link id no document held before. *)
Lemma find_share_link_fresh link_id items key d d' l' :
  find_share_link link_id items = None ->
  dict_get key items = Some d ->
  dict_get link_id (Document.share_links d') = Some l' ->
  find_share_link link_id (dict_set key d' items) = Some (key, d', l').
Proof.
  intros Hf Hg Hl'. induction items as [|[k0 d0] rest IH]; simpl in *;
    [discriminate |].
  destruct (dict_get link_id (Document.share_links d0)) as [l0|] eqn:E0;
    [discriminate |].
  destruct (N.eqb_spec key k0) as [->|Hne]; simpl.
  - now rewrite Hl'.
  - rewrite E0. now apply IH.
Qed.

(** One redemption of a live link succeeds and leaves it live, its counter
    one higher. *)
Lemma redeem_live self document_id link_id count user_id now_check
      now_touch :
  live_link self document_id link_id count ->
  exists r self',
    access_via_share_link link_id user_id now_check now_touch self =
    (Returns r, self') /\
    live_link self' document_id link_id (count + 1).
Proof.
  intros (d & l & Hf & Hg & Hact & Hexp & Hcnt).
  rewrite access_via_share_link_eq, access_scan_eq, Hf, Hact.
  unfold has_expired. rewrite Hexp. simpl.
  do 2 eexists. split; [reflexivity |].
  unfold live_link. simpl.
  exists (redeemed d l link_id user_id now_touch),
         (ShareLink.set_access_count l (ShareLink.access_count l + 1)).
  split; [| split; [apply dict_get_set_same |
                    simpl; rewrite Hcnt; auto]].
  apply (find_share_link_written _ _ _ d l); try assumption.
  rewrite redeemed_share_links. apply dict_get_set_same.
Qed.

Lemma redeem_all_live callers :
  forall self document_id link_id count,
    live_link self document_id link_id count ->
    exists self',
      redeem_all link_id callers self = (Returns tt, self') /\
      live_link self' document_id link_id
                (count + Z.of_nat (List.length callers)).
Proof.
  induction callers as [|[[u n1] n2] rest IH];
    intros self document_id link_id count H.
  - exists self. simpl. rewrite Z.add_0_r. split; [reflexivity | exact H].
  - destruct (redeem_live self document_id link_id count u n1 n2 H)
      as (r & s1 & Hr & H1).
    destruct (IH s1 document_id link_id (count + 1)%Z H1) as (s2 & Hs & H2).
    exists s2. split.
    + cbn [redeem_all]. unfold bind at 1. now rewrite Hr.
    + replace (count + Z.of_nat (List.length ((u, n1, n2) :: rest)))%Z
        with (count + 1 + Z.of_nat (List.length rest))%Z; [exact H2 |].
      cbn [List.length]. lia.
Qed.

(** A link created under an id no document holds is live, not yet
    redeemed. *)
Lemma create_share_link_live self document_id actor role new_id now :
  check_permission self actor document_id MANAGE = true ->
  link_unknown new_id self ->
  exists l self',
    create_share_link document_id actor role None new_id now self =
    (Returns l, self') /\
    live_link self' document_id new_id 0.
Proof.
  intros Hc Hu.
  destruct (check_permission_document _ _ _ _ Hc) as [d Hd].
  unfold_method. rewrite Hc. simpl. rewrite Hd. simpl.
  do 2 eexists. split; [reflexivity |].
  unfold live_link. simpl.
  set (l := ShareLink.mk new_id document_id actor now None role true 0).
  exists (Document.set_share_links
            d (dict_set new_id l (Document.share_links d))), l.
  split; [| split; [apply dict_get_set_same | auto]].
  apply (find_share_link_fresh _ _ _ d); [| exact Hd |].
  - apply find_share_link_None. exact Hu.
  - simpl. apply dict_get_set_same.
Qed.

(** C6. Redeeming a link that the lookup finds active and not expired
    succeeds and returns the document that holds the link together with the
    link's access role, whoever the caller is; in the state after the call
    that link's counter is one higher and every other link of every
    document is as it was.  A link created with no expiry under a fresh id
    and then redeemed N times in a row has counter N, every redemption
    having succeeded. *)
Theorem redemption_counts :
  (forall self link_id user_id now_check now_touch key document share_link,
      dict_wf (documents self) = true ->
      find_share_link link_id (documents self) =
      Some (key, document, share_link) ->
      ShareLink.is_active share_link = true ->
      has_expired share_link now_check = false ->
      exists document',
        outcome (access_via_share_link link_id user_id now_check now_touch)
                self =
        Returns (document', ShareLink.access_role share_link) /\
        dict_get key
          (documents
             (state_after
                (access_via_share_link link_id user_id now_check now_touch)
                self)) = Some document' /\
        Document.id document' = Document.id document /\
        share_link_of
          (state_after
             (access_via_share_link link_id user_id now_check now_touch)
             self) key link_id =
        Some (ShareLink.set_access_count
                share_link (ShareLink.access_count share_link + 1)) /\
        (forall key' link_id',
            (key', link_id') <> (key, link_id) ->
            share_link_of
              (state_after
                 (access_via_share_link link_id user_id now_check now_touch)
                 self) key' link_id' =
            share_link_of self key' link_id')) /\
  (forall self document_id actor role new_id now callers,
      check_permission self actor document_id MANAGE = true ->
      link_unknown new_id self ->
      outcome (redeem_all new_id callers)
              (state_after
                 (create_share_link document_id actor role None new_id now)
                 self) = Returns tt /\
      exists share_link,
        share_link_of
          (state_after (redeem_all new_id callers)
             (state_after
                (create_share_link document_id actor role None new_id now)
                self)) document_id new_id = Some share_link /\
        ShareLink.access_count share_link = Z.of_nat (List.length callers)).
Proof.
  split.
  - intros self link_id user_id now_check now_touch key d l Hwf Hf Hact Hexp.
    destruct (find_share_link_Some _ _ _ _ _ Hf) as [Hin Hl].
    pose proof (dict_wf_In_get _ _ _ _ Hwf Hin) as Hg.
    exists (redeemed d l link_id user_id now_touch).
    unfold outcome, state_after, share_link_of.
    rewrite access_via_share_link_eq, access_scan_eq, Hf, Hact, Hexp. simpl.
    rewrite dict_get_set_same, redeemed_share_links, dict_get_set_same.
    repeat split.
    + apply redeemed_identity.
    + intros key' link_id' Hne.
      destruct (N.eqb_spec key' key) as [->|Hk].
      * rewrite dict_get_set_same, Hg, redeemed_share_links.
        apply dict_get_set_other. congruence.
      * now rewrite dict_get_set_other.
  - intros self document_id actor role new_id now callers Hc Hu.
    destruct (create_share_link_live self document_id actor role new_id now
                                     Hc Hu) as (l & s1 & Hcr & Hlive).
    destruct (redeem_all_live callers s1 document_id new_id 0%Z Hlive)
      as (s2 & Hr & (d2 & l2 & Hf2 & Hg2 & _ & _ & Hcnt)).
    unfold outcome, state_after, share_link_of.
    rewrite Hcr. simpl. rewrite Hr. simpl. split; [reflexivity |].
    exists l2. rewrite Hg2.
    destruct (find_share_link_Some _ _ _ _ _ Hf2) as [_ Hl2].
    split; [exact Hl2 | exact Hcnt].
Qed.

Lemma redemption_counts_witness :
  (exists document',
      outcome (access_via_share_link 77 (Some 2%N) 8 9) scenario_linked =
      Returns (document', VIEWER)) /\
  exists share_link,
    share_link_of
      (state_after (redeem_all 77 [(None, 8, 8); (Some 3%N, 9, 9);
                                   (Some 1%N, 10, 10)]%Z)
                   scenario_linked) 10 77 = Some share_link /\
    ShareLink.access_count share_link = 3%Z.
Proof.
  split.
  - destruct (proj1 redemption_counts scenario_linked 77%N (Some 2%N) 8%Z 9%Z
                    10%N _ _ eq_refl eq_refl eq_refl eq_refl)
      as (d' & Ho & _).
    exists d'. exact Ho.
  - assert (Hu : link_unknown 77 scenario)
      by (unfold link_unknown; apply find_share_link_None; reflexivity).
    exact (proj2 (proj2 redemption_counts scenario 10%N 1%N VIEWER 77%N 7%Z
                        [(None, 8, 8); (Some 3%N, 9, 9); (Some 1%N, 10, 10)]%Z
                        eq_refl Hu)).
Defined.

(* ------------------------------------------------------------------ *)
(** ** Revoking twice *)

(** C8. Revoking a share link is idempotent: when the actor holds MANAGE
    and the document has the link, the call succeeds, a second call
    succeeds as well, and the second call leaves the state the first one
    produced, in which the link is inactive. *)
Theorem revoke_share_link_idempotent :
  forall self document_id link_id actor share_link,
    check_permission self actor document_id MANAGE = true ->
    share_link_of self document_id link_id = Some share_link ->
    exists self1,
      revoke_share_link document_id link_id actor self =
      (Returns tt, self1) /\
      revoke_share_link document_id link_id actor self1 =
      (Returns tt, self1) /\
      share_link_of self1 document_id link_id =
      Some (ShareLink.set_is_active share_link false).
Proof.
  intros self document_id link_id actor l Hc Hl.
  unfold share_link_of in Hl.
  destruct (dict_get document_id (documents self)) as [d|] eqn:Hd;
    [| discriminate].
  eexists. split; [| split].
  - unfold_method. rewrite Hc. simpl. rewrite Hd. simpl. rewrite Hl.
    reflexivity.
  - unfold_method.
    assert (Hc1 : check_permission
                    (mkManager
                       (dict_set document_id
                          (Document.set_share_links d
                             (dict_set link_id
                                (ShareLink.set_is_active l false)
                                (Document.share_links d)))
                          (documents self)) (users self))
                    actor document_id MANAGE = true).
    { unfold check_permission, get_user_role in *. simpl.
      rewrite dict_get_set_same. simpl. now rewrite Hd in Hc. }
    rewrite Hc1. simpl. rewrite dict_get_set_same. simpl.
    rewrite dict_get_set_same. simpl.
    unfold Document.set_share_links, ShareLink.set_is_active. simpl.
    now rewrite !dict_set_twice.
  - unfold share_link_of. simpl. rewrite dict_get_set_same. simpl.
    apply dict_get_set_same.
Qed.

Lemma revoke_share_link_idempotent_witness :
  exists self1,
    revoke_share_link 10 77 1 scenario_linked = (Returns tt, self1) /\
    revoke_share_link 10 77 1 self1 = (Returns tt, self1) /\
    share_link_of self1 10 77 =
    Some (ShareLink.mk 77 10 1 7 None VIEWER false 0).
Proof.
  exact (revoke_share_link_idempotent
           scenario_linked 10%N 77%N 1%N
           (ShareLink.mk 77 10 1 7 None VIEWER true 0) eq_refl eq_refl).
Defined.

(* ------------------------------------------------------------------ *)
(** ** The owner is not a collaborator *)

Lemma owners_unlisted_entry self key document :
  owners_unlisted self = true ->
  dict_get key (documents self) = Some document ->
  dict_mem (Document.owner_id document) (Document.collaborators document) =
  false.
Proof.
  unfold owners_unlisted. rewrite forallb_forall. intros H Hg.
  apply dict_get_In in Hg. specialize (H _ Hg). simpl in H.
  now apply negb_true_iff in H.
Qed.

Lemma owners_unlisted_write self key document :
  owners_unlisted self = true ->
  dict_mem (Document.owner_id document) (Document.collaborators document) =
  false ->
  owners_unlisted
    (mkManager (dict_set key document (documents self)) (users self)) = true.
Proof.
  unfold owners_unlisted. simpl. intros H Hd.
  induction (documents self) as [|[k0 d0] rest IH]; simpl in *.
  - now rewrite Hd.
  - apply andb_true_iff in H as [H0 Hrest].
    destruct (N.eqb_spec key k0); simpl.
    + now rewrite Hd, Hrest.
    + now rewrite H0, IH.
Qed.

Lemma perform_owners_unlisted self c :
  owners_unlisted self = true -> owners_unlisted (perform self c) = true.
Proof.
  intros H. destruct c as [d u r a now | d u a | d a r e i now | d l a
                          | l u n1 n2 | d u | d u];
    unfold perform, state_after.
  - unfold_method.
    destruct (check_permission self a d MANAGE); simpl; [| exact H].
    destruct (dict_get d (documents self)) as [doc|] eqn:Hd; simpl;
      [| exact H].
    destruct (dict_mem u (users self)); simpl; [| exact H].
    destruct (N.eqb_spec u (Document.owner_id doc)) as [|Hne]; simpl;
      [exact H |].
    apply owners_unlisted_write; [exact H |]. simpl.
    rewrite dict_mem_set, (owners_unlisted_entry self d doc H Hd).
    destruct (N.eqb_spec (Document.owner_id doc) u);
      [congruence | reflexivity].
  - unfold_method.
    destruct (check_permission self a d MANAGE); simpl; [| exact H].
    destruct (dict_get d (documents self)) as [doc|] eqn:Hd; simpl;
      [| exact H].
    destruct (dict_mem u (Document.collaborators doc)); simpl; [| exact H].
    apply owners_unlisted_write; [exact H |]. simpl.
    pose proof (owners_unlisted_entry self d doc H Hd) as Ho.
    unfold dict_mem in *.
    destruct (dict_get (Document.owner_id doc) (Document.collaborators doc))
      eqn:E; [discriminate |].
    now rewrite dict_get_del_absent.
  - unfold_method.
    destruct (check_permission self a d MANAGE); simpl; [| exact H].
    destruct (dict_get d (documents self)) as [doc|] eqn:Hd; simpl;
      [| exact H].
    apply owners_unlisted_write; [exact H |]. simpl.
    exact (owners_unlisted_entry self d doc H Hd).
  - unfold_method.
    destruct (check_permission self a d MANAGE); simpl; [| exact H].
    destruct (dict_get d (documents self)) as [doc|] eqn:Hd; simpl;
      [| exact H].
    destruct (dict_get l (Document.share_links doc)); simpl; [| exact H].
    apply owners_unlisted_write; [exact H |]. simpl.
    exact (owners_unlisted_entry self d doc H Hd).
  - rewrite access_via_share_link_eq, access_scan_eq.
    destruct (find_share_link l (documents self)) as [[[key doc] link]|]
      eqn:Hf; [| exact H].
    destruct (negb (ShareLink.is_active link)); [exact H |].
    destruct (has_expired link n1); [exact H |]. simpl.
    apply owners_unlisted_write; [exact H |].
    rewrite redeemed_collaborators_mem.
    destruct (redeemed_identity doc link l u n2) as [_ ->].
    destruct (find_share_link_Some _ _ _ _ _ Hf) as [Hin _].
    unfold owners_unlisted in H. rewrite forallb_forall in H.
    specialize (H _ Hin). simpl in H. now apply negb_true_iff in H.
  - unfold_method.
    destruct (check_permission self u d VIEW); simpl; [| exact H].
    destruct (dict_get d (documents self)); exact H.
  - unfold_method.
    destruct (check_permission self u d MANAGE); simpl; [| exact H].
    destruct (dict_get d (documents self)); exact H.
Qed.

(** C5. Adding a document's owner as a collaborator raises the
    cannot-add-owner error (kind InvalidOperation) whenever the actor holds
    MANAGE and the owner is a registered user, whatever the role asked for;
    and from a state in which no document lists its owner among its
    collaborators, every sequence of calls to the operations of the core
    leads to such a state again. *)
Theorem owner_never_collaborator :
  (forall self document_id document actor role now,
      check_permission self actor document_id MANAGE = true ->
      dict_get document_id (documents self) = Some document ->
      dict_mem (Document.owner_id document) (users self) = true ->
      add_collaborator document_id (Document.owner_id document) role actor
                       now self = (Raises Cannot_add_owner, self) /\
      error_kind Cannot_add_owner = InvalidOperation) /\
  (forall calls self,
      owners_unlisted self = true ->
      owners_unlisted (run calls self) = true).
Proof.
  split.
  - intros self document_id document actor role now Hc Hd Hu.
    split; [| reflexivity].
    unfold_method. rewrite Hc. simpl. rewrite Hd. simpl. rewrite Hu. simpl.
    now rewrite N.eqb_refl.
  - unfold run. induction calls as [|c calls IH]; intros self H; simpl.
    + exact H.
    + apply IH. now apply perform_owners_unlisted.
Qed.

Lemma owner_never_collaborator_witness :
  add_collaborator 10 1 EDITOR 1 0 scenario =
  (Raises Cannot_add_owner, scenario) /\
  owners_unlisted
    (run [Add_collaborator 10 1 OWNER 1 3; Remove_collaborator 10 3 1;
          Access_via_share_link 77 (Some 2%N) 8 9]
         scenario_linked) = true.
Proof.
  split.
  - pose proof (proj1 owner_never_collaborator scenario 10%N) as H.
    specialize (H _ 1%N EDITOR 0%Z eq_refl eq_refl eq_refl).
    exact (proj1 H).
  - exact (proj2 owner_never_collaborator _ scenario_linked eq_refl).
Defined.

(* ------------------------------------------------------------------ *)
(** ** OWNER as a granted role *)

(** C10. The core accepts OWNER as a role to grant: when the actor holds
    MANAGE, the user is registered and is not the document's owner,
    add_collaborator with role OWNER succeeds and stores a record with that
    role, after which get_user_role gives the user OWNER and the user
    passes the MANAGE check; create_share_link with role OWNER succeeds and
    stores a link whose access role is OWNER. *)
Theorem owner_role_grantable :
  (forall self document_id document user_id actor now,
      check_permission self actor document_id MANAGE = true ->
      dict_get document_id (documents self) = Some document ->
      dict_mem user_id (users self) = true ->
      user_id <> Document.owner_id document ->
      exists collaborator self1,
        add_collaborator document_id user_id OWNER actor now self =
        (Returns collaborator, self1) /\
        Collaborator.role collaborator = OWNER /\
        collaborator_of self1 document_id user_id = Some collaborator /\
        get_user_role self1 user_id document_id = Some OWNER /\
        check_permission self1 user_id document_id MANAGE = true) /\
  (forall self document_id actor expires_at new_id now,
      check_permission self actor document_id MANAGE = true ->
      exists share_link self1,
        create_share_link document_id actor OWNER expires_at new_id now self =
        (Returns share_link, self1) /\
        ShareLink.access_role share_link = OWNER /\
        share_link_of self1 document_id new_id = Some share_link).
Proof.
  split.
  - intros self document_id d user_id actor now Hc Hd Hu Hne.
    exists (Collaborator.mk user_id document_id OWNER actor now None).
    eexists. split; [| split; [reflexivity |]].
    + unfold_method. rewrite Hc. simpl. rewrite Hd. simpl. rewrite Hu. simpl.
      destruct (N.eqb_spec user_id (Document.owner_id d));
        [contradiction | reflexivity].
    + unfold collaborator_of, check_permission, get_user_role. simpl.
      rewrite dict_get_set_same. simpl. rewrite dict_get_set_same.
      destruct (N.eqb_spec (Document.owner_id d) user_id);
        [congruence |]. simpl. repeat split.
  - intros self document_id actor expires_at new_id now Hc.
    destruct (check_permission_document _ _ _ _ Hc) as [d Hd].
    exists (ShareLink.mk new_id document_id actor now expires_at OWNER
                         true 0).
    eexists. split; [| split; [reflexivity |]].
    + unfold_method. rewrite Hc. simpl. rewrite Hd. reflexivity.
    + unfold share_link_of. simpl. rewrite dict_get_set_same. simpl.
      apply dict_get_set_same.
Qed.

Lemma owner_role_grantable_witness :
  (exists collaborator self1,
      add_collaborator 10 3 OWNER 1 9 scenario =
      (Returns collaborator, self1) /\
      Collaborator.role collaborator = OWNER /\
      collaborator_of self1 10 3 = Some collaborator /\
      get_user_role self1 3 10 = Some OWNER /\
      check_permission self1 3 10 MANAGE = true) /\
  exists share_link self1,
    create_share_link 10 1 OWNER None 79 9 scenario =
    (Returns share_link, self1) /\
    ShareLink.access_role share_link = OWNER /\
    share_link_of self1 10 79 = Some share_link.
Proof.
  split.
  - pose proof (proj1 owner_role_grantable scenario 10%N) as H.
    refine (H _ 3%N 1%N 9%Z eq_refl eq_refl eq_refl _).
    simpl. discriminate.
  - exact (proj2 owner_role_grantable scenario 10%N 1%N None 79%N 9%Z
                 eq_refl).
Defined.

(* ================================================================== *)
(** * Further properties of the collaboration core *)

(* ------------------------------------------------------------------ *)
(** ** One call, one write *)

Lemma dict_wf_find_get link_id items key d l :
  dict_wf items = true ->
  find_share_link link_id items = Some (key, d, l) ->
  dict_get key items = Some d.
Proof.
  intros Hwf Hf. destruct (find_share_link_Some _ _ _ _ _ Hf) as [Hin _].
  now apply dict_wf_In_get.
Qed.

(** A call either leaves the manager as it is or rewrites one registered
    document, in the way [document_step] tells. *)
Lemma perform_shape self c :
  dict_wf (documents self) = true ->
  perform self c = self \/
  exists key d d',
    dict_get key (documents self) = Some d /\
    perform self c =
    mkManager (dict_set key d' (documents self)) (users self) /\
    document_step c key d d'.
Proof.
  intros Hwf.
  destruct c as [d u r a now | d u a | d a r e i now | d l a
                | l u n1 n2 | d u | d u];
    unfold perform, state_after.
  - unfold_method.
    destruct (check_permission self a d MANAGE); simpl; [| now left].
    destruct (dict_get d (documents self)) as [doc|] eqn:Hd; simpl;
      [| now left].
    destruct (dict_mem u (users self)); simpl; [| now left].
    destruct (N.eqb_spec u (Document.owner_id doc)) as [|Hne]; simpl;
      [now left |].
    right. exists d, doc. eexists. repeat split; eauto.
  - unfold_method.
    destruct (check_permission self a d MANAGE); simpl; [| now left].
    destruct (dict_get d (documents self)) as [doc|] eqn:Hd; simpl;
      [| now left].
    destruct (dict_mem u (Document.collaborators doc)) eqn:Hm; simpl;
      [| now left].
    right. exists d, doc. eexists. repeat split; eauto.
  - unfold_method.
    destruct (check_permission self a d MANAGE); simpl; [| now left].
    destruct (dict_get d (documents self)) as [doc|] eqn:Hd; simpl;
      [| now left].
    right. exists d, doc. eexists. repeat split; eauto.
  - unfold_method.
    destruct (check_permission self a d MANAGE); simpl; [| now left].
    destruct (dict_get d (documents self)) as [doc|] eqn:Hd; simpl;
      [| now left].
    destruct (dict_get l (Document.share_links doc)) as [lk|] eqn:Hl; simpl;
      [| now left].
    right. exists d, doc. eexists. split; [exact Hd |].
    split; [reflexivity |]. split; [reflexivity |].
    exists lk. split; [exact Hl | reflexivity].
  - rewrite access_via_share_link_eq, access_scan_eq.
    destruct (find_share_link l (documents self)) as [[[key doc] lk]|]
      eqn:Hf; [| now left].
    destruct (ShareLink.is_active lk) eqn:Hact; simpl; [| now left].
    destruct (has_expired lk n1); [now left |]. simpl.
    right. exists key, doc. eexists.
    split; [exact (dict_wf_find_get _ _ _ _ _ Hwf Hf) |].
    split; [reflexivity |].
    exists lk. destruct (find_share_link_Some _ _ _ _ _ Hf) as [_ Hl].
    repeat split; assumption.
  - unfold_method.
    destruct (check_permission self u d VIEW); simpl; [| now left].
    destruct (dict_get d (documents self)); now left.
  - unfold_method.
    destruct (check_permission self u d MANAGE); simpl; [| now left].
    destruct (dict_get d (documents self)); now left.
Qed.

Lemma perform_wf self c :
  dict_wf (documents self) = true ->
  dict_wf (documents (perform self c)) = true.
Proof.
  intros Hwf. destruct (perform_shape self c Hwf)
    as [-> | (key & d & d' & _ & -> & _)]; [exact Hwf |].
  simpl. now apply dict_wf_set.
Qed.

Lemma run_wf calls :
  forall self,
    dict_wf (documents self) = true ->
    dict_wf (documents (run calls self)) = true.
Proof.
  unfold run. induction calls as [|c calls IH]; intros self H; simpl;
    [exact H |].
  apply IH. now apply perform_wf.
Qed.

Lemma perform_users self c :
  dict_wf (documents self) = true -> users (perform self c) = users self.
Proof.
  intros Hwf. destruct (perform_shape self c Hwf)
    as [-> | (key & d & d' & _ & -> & _)]; reflexivity.
Qed.

(** No write changes who owns the document or what its id is. *)
Lemma document_step_owner c key d d' :
  document_step c key d d' ->
  Document.owner_id d' = Document.owner_id d /\
  Document.id d' = Document.id d.
Proof.
  destruct c; simpl; try tauto.
  - intros (_ & _ & ->). split; reflexivity.
  - intros (_ & _ & ->). split; reflexivity.
  - intros (_ & ->). split; reflexivity.
  - intros (_ & lk & _ & ->). split; reflexivity.
  - intros (lk & _ & _ & ->).
    destruct (redeemed_identity d lk link_id user_id now_touch).
    split; assumption.
Qed.

Lemma get_user_role_owner self document_id document :
  dict_get document_id (documents self) = Some document ->
  get_user_role self (Document.owner_id document) document_id = Some OWNER.
Proof.
  intros H. unfold get_user_role. now rewrite H, N.eqb_refl.
Qed.

Lemma perform_keeps_owner self c document_id document :
  dict_wf (documents self) = true ->
  dict_get document_id (documents self) = Some document ->
  exists document',
    dict_get document_id (documents (perform self c)) = Some document' /\
    Document.owner_id document' = Document.owner_id document.
Proof.
  intros Hwf Hd. destruct (perform_shape self c Hwf)
    as [-> | (key & d & d' & Hk & -> & Hstep)]; [eauto |].
  simpl. destruct (N.eqb_spec document_id key) as [->|Hne].
  - exists d'. rewrite dict_get_set_same. split; [reflexivity |].
    destruct (document_step_owner _ _ _ _ Hstep) as [-> _]. congruence.
  - exists document. rewrite dict_get_set_other by assumption. auto.
Qed.

(** X1. Whatever calls are made, the manager's user registry stays as it
    is, a registered document stays registered with the same owner, and
    that owner passes every permission check on it. *)
Theorem owner_keeps_full_access :
  forall calls self document_id document,
    dict_wf (documents self) = true ->
    dict_get document_id (documents self) = Some document ->
    users (run calls self) = users self /\
    exists document',
      dict_get document_id (documents (run calls self)) = Some document' /\
      Document.owner_id document' = Document.owner_id document /\
      forall permission,
        check_permission (run calls self) (Document.owner_id document)
                         document_id permission = true.
Proof.
  unfold run. induction calls as [|c calls IH];
    intros self document_id document Hwf Hd; simpl.
  - split; [reflexivity |]. exists document. repeat split; try assumption.
    intros p. unfold check_permission.
    rewrite (get_user_role_owner _ _ _ Hd). destruct p; reflexivity.
  - destruct (perform_keeps_owner self c document_id document Hwf Hd)
      as (d1 & Hd1 & Ho1).
    destruct (IH (perform self c) document_id d1
                 (perform_wf self c Hwf) Hd1) as (Hu & d2 & Hd2 & Ho2 & Hp).
    split; [now rewrite Hu, perform_users |].
    exists d2. split; [exact Hd2 |]. split; [congruence |].
    intros p. rewrite <- Ho1. apply Hp.
Qed.

Lemma owner_keeps_full_access_witness :
  check_permission
    (run [Add_collaborator 10 2 OWNER 1 3; Remove_collaborator 10 3 2;
          Revoke_share_link 10 77 2; Access_via_share_link 77 None 8 9]
         scenario_linked) 1 10 MANAGE = true.
Proof.
  pose proof (owner_keeps_full_access
                [Add_collaborator 10 2 OWNER 1 3; Remove_collaborator 10 3 2;
                 Revoke_share_link 10 77 2; Access_via_share_link 77 None 8 9]
                scenario_linked 10%N) as H.
  specialize (H _ eq_refl eq_refl).
  destruct H as (_ & d' & _ & _ & Hp).
  exact (Hp MANAGE).
Defined.

(* ------------------------------------------------------------------ *)
(** ** The life of a share link *)

Lemma link_evolved_refl l : link_evolved l l.
Proof. unfold link_evolved. repeat split; auto. lia. Qed.

Lemma link_evolved_trans l1 l2 l3 :
  link_evolved l1 l2 -> link_evolved l2 l3 -> link_evolved l1 l3.
Proof.
  unfold link_evolved.
  intros (A1 & B1 & C1 & D1 & E1 & F1 & G1 & H1)
         (A2 & B2 & C2 & D2 & E2 & F2 & G2 & H2).
  repeat split; try congruence; auto. lia.
Qed.

(** One write, seen from a link the call does not store anew. *)
Lemma document_step_link c key d d' link_id l :
  document_step c key d d' ->
  creates_link key link_id c = false ->
  dict_get link_id (Document.share_links d) = Some l ->
  exists l',
    dict_get link_id (Document.share_links d') = Some l' /\
    link_evolved l l'.
Proof.
  intros Hstep Hc Hl.
  destruct c as [d0 u r a now | d0 u a | d0 a r e i now | d0 l0 a
                | l0 u n1 n2 | d0 u | d0 u]; simpl in Hstep, Hc;
    try contradiction.
  - destruct Hstep as (_ & _ & ->). exists l.
    split; [exact Hl | apply link_evolved_refl].
  - destruct Hstep as (_ & _ & ->). exists l.
    split; [exact Hl | apply link_evolved_refl].
  - destruct Hstep as (-> & ->). simpl. rewrite N.eqb_refl in Hc.
    simpl in Hc. exists l. split; [| apply link_evolved_refl].
    rewrite dict_get_set_other; [exact Hl |].
    intros ->. now rewrite N.eqb_refl in Hc.
  - destruct Hstep as (_ & lk & Hlk & ->). simpl.
    destruct (N.eqb_spec link_id l0) as [->|Hne].
    + rewrite dict_get_set_same. eexists. split; [reflexivity |].
      assert (lk = l) by congruence. subst lk.
      unfold link_evolved. simpl. repeat split; try discriminate. lia.
    + exists l. rewrite dict_get_set_other by assumption.
      split; [exact Hl | apply link_evolved_refl].
  - destruct Hstep as (lk & Hlk & _ & ->). rewrite redeemed_share_links.
    destruct (N.eqb_spec link_id l0) as [->|Hne].
    + rewrite dict_get_set_same. eexists. split; [reflexivity |].
      assert (lk = l) by congruence. subst lk.
      unfold link_evolved. simpl. repeat split; auto. lia.
    + exists l. rewrite dict_get_set_other by assumption.
      split; [exact Hl | apply link_evolved_refl].
Qed.

Lemma perform_link self c document_id link_id l :
  dict_wf (documents self) = true ->
  creates_link document_id link_id c = false ->
  share_link_of self document_id link_id = Some l ->
  exists l',
    share_link_of (perform self c) document_id link_id = Some l' /\
    link_evolved l l'.
Proof.
  intros Hwf Hc Hl. destruct (perform_shape self c Hwf)
    as [-> | (key & d & d' & Hk & -> & Hstep)].
  - exists l. split; [exact Hl | apply link_evolved_refl].
  - unfold share_link_of in *. simpl.
    destruct (N.eqb_spec document_id key) as [->|Hne].
    + rewrite dict_get_set_same. rewrite Hk in Hl.
      exact (document_step_link _ _ _ _ _ _ Hstep Hc Hl).
    + rewrite dict_get_set_other by assumption.
      exists l. split; [exact Hl | apply link_evolved_refl].
Qed.

(** X2. A share link is never deleted and never reactivated.  Through any
    sequence of calls that does not store a new link under the same id, a
    link a document holds is still held afterwards, with the same role,
    expiry and creator; once inactive it stays inactive, and its access
    counter never goes down. *)
Theorem share_link_only_evolves :
  forall calls self document_id link_id share_link,
    dict_wf (documents self) = true ->
    never_recreated document_id link_id calls = true ->
    share_link_of self document_id link_id = Some share_link ->
    exists share_link',
      share_link_of (run calls self) document_id link_id =
      Some share_link' /\
      link_evolved share_link share_link'.
Proof.
  unfold run. induction calls as [|c calls IH];
    intros self document_id link_id l Hwf Hn Hl; simpl in *.
  - exists l. split; [exact Hl | apply link_evolved_refl].
  - apply andb_true_iff in Hn as [Hc Hn]. apply negb_true_iff in Hc.
    destruct (perform_link self c document_id link_id l Hwf Hc Hl)
      as (l1 & Hl1 & He1).
    destruct (IH (perform self c) document_id link_id l1
                 (perform_wf self c Hwf) Hn Hl1) as (l2 & Hl2 & He2).
    exists l2. split; [exact Hl2 |].
    exact (link_evolved_trans _ _ _ He1 He2).
Qed.

Lemma share_link_only_evolves_witness :
  exists share_link',
    share_link_of
      (run [Access_via_share_link 77 None 8 8; Revoke_share_link 10 77 1;
            Create_share_link 10 1 OWNER None 78 9;
            Access_via_share_link 77 (Some 2%N) 9 9]
           scenario_linked) 10 77 = Some share_link' /\
    link_evolved (ShareLink.mk 77 10 1 7 None VIEWER true 0) share_link'.
Proof.
  exact (share_link_only_evolves
           [Access_via_share_link 77 None 8 8; Revoke_share_link 10 77 1;
            Create_share_link 10 1 OWNER None 78 9;
            Access_via_share_link 77 (Some 2%N) 9 9]
           scenario_linked 10%N 77%N
           (ShareLink.mk 77 10 1 7 None VIEWER true 0)
           eq_refl eq_refl eq_refl).
Defined.

(* ------------------------------------------------------------------ *)
(** ** Calls that leave every role alone *)

Lemma document_step_roles c key d d' user_id :
  document_step c key d d' ->
  edits_collaborators c = false ->
  option_map Collaborator.role
             (dict_get user_id (Document.collaborators d')) =
  option_map Collaborator.role
             (dict_get user_id (Document.collaborators d)).
Proof.
  intros Hstep He.
  destruct c as [d0 u r a now | d0 u a | d0 a r e i now | d0 l0 a
                | l0 u n1 n2 | d0 u | d0 u]; simpl in Hstep, He;
    try contradiction; try discriminate.
  - destruct Hstep as (_ & ->). reflexivity.
  - destruct Hstep as (_ & lk & _ & ->). reflexivity.
  - destruct Hstep as (lk & _ & _ & ->). unfold redeemed.
    destruct u as [caller|]; [| reflexivity]. simpl.
    destruct (dict_get caller (Document.collaborators d)) as [c|] eqn:E;
      [| reflexivity].
    simpl. destruct (N.eqb_spec user_id caller) as [->|Hne].
    + rewrite dict_get_set_same, E. reflexivity.
    + now rewrite dict_get_set_other.
Qed.

(** X3. Creating, revoking, redeeming and listing leave every user's role
    on every document as it was: a redeemed link hands its role to the
    caller of that one call and stores nothing. *)
Theorem only_collaborator_edits_change_roles :
  forall self c user_id document_id,
    dict_wf (documents self) = true ->
    edits_collaborators c = false ->
    get_user_role (perform self c) user_id document_id =
    get_user_role self user_id document_id.
Proof.
  intros self c user_id document_id Hwf He.
  destruct (perform_shape self c Hwf)
    as [-> | (key & d & d' & Hk & -> & Hstep)]; [reflexivity |].
  unfold get_user_role. simpl.
  destruct (N.eqb_spec document_id key) as [->|Hne].
  - rewrite dict_get_set_same, Hk.
    destruct (document_step_owner _ _ _ _ Hstep) as [-> _].
    destruct (Document.owner_id d =? user_id)%N; [reflexivity |].
    pose proof (document_step_roles _ _ _ _ user_id Hstep He) as Hr.
    destruct (dict_get user_id (Document.collaborators d')),
             (dict_get user_id (Document.collaborators d));
      simpl in Hr; congruence.
  - now rewrite dict_get_set_other.
Qed.

Lemma only_collaborator_edits_change_roles_witness :
  get_user_role
    (perform scenario_linked (Access_via_share_link 77 (Some 3%N) 8 9))
    3 10 = Some VIEWER.
Proof.
  exact (only_collaborator_edits_change_roles
           scenario_linked (Access_via_share_link 77 (Some 3%N) 8 9)
           3%N 10%N eq_refl eq_refl).
Defined.

(* ------------------------------------------------------------------ *)
(** ** Granting and withdrawing a role *)

Section MoreDictFacts.
Variable V : Type.
Implicit Types (d : pydict V) (k : UUID) (v : V).

Lemma dict_del_set_fresh k v d :
  dict_get k d = None -> dict_del k (dict_set k v d) = d.
Proof.
  induction d as [|[k0 v0] d IH]; simpl.
  - now rewrite N.eqb_refl.
  - destruct (N.eqb_spec k k0) as [->|Hk]; [discriminate |].
    intros H. simpl. destruct (N.eqb_spec k k0); [contradiction |].
    now rewrite IH.
Qed.

Lemma dict_get_del_other k k' d :
  k' <> k -> dict_get k' (dict_del k d) = dict_get k' d.
Proof.
  intros Hne. induction d as [|[k0 v0] d IH]; simpl; [reflexivity |].
  destruct (N.eqb_spec k k0) as [->|Hk]; simpl.
  - destruct (N.eqb_spec k' k0); [contradiction | reflexivity].
  - destruct (N.eqb_spec k' k0); [reflexivity | exact IH].
Qed.

Lemma dict_get_del_same k d :
  dict_wf d = true -> dict_get k (dict_del k d) = None.
Proof.
  induction d as [|[k0 v0] d IH]; simpl; [reflexivity |].
  rewrite andb_true_iff, negb_true_iff. intros [Hk0 Hwf].
  destruct (N.eqb_spec k k0) as [->|Hk]; simpl.
  - unfold dict_mem in Hk0. now destruct (dict_get k0 d).
  - destruct (N.eqb_spec k k0); [contradiction | now apply IH].
Qed.

Lemma dict_values_set_fresh k v d :
  dict_get k d = None -> dict_values (dict_set k v d) = dict_values d ++ [v].
Proof.
  unfold dict_values. induction d as [|[k0 v0] d IH]; simpl; [reflexivity |].
  destruct (N.eqb_spec k k0) as [->|Hk]; [discriminate |].
  intros H. simpl. now rewrite IH.
Qed.

Lemma dict_values_set_length k v v0 d :
  dict_get k d = Some v0 ->
  List.length (dict_values (dict_set k v d)) = List.length (dict_values d).
Proof.
  unfold dict_values. induction d as [|[k1 v1] d IH]; simpl; [discriminate |].
  destruct (N.eqb_spec k k1) as [->|Hk]; simpl; [reflexivity |].
  intros H. now rewrite IH.
Qed.

Lemma dict_values_set_In k v d : In v (dict_values (dict_set k v d)).
Proof.
  unfold dict_values. induction d as [|[k1 v1] d IH]; simpl; [now left |].
  destruct (N.eqb_spec k k1); simpl; [now left | now right].
Qed.

End MoreDictFacts.

Lemma set_collaborators_same d :
  Document.set_collaborators d (Document.collaborators d) = d.
Proof. destruct d; reflexivity. Qed.

(** What a successful [add_collaborator] has checked and written. *)
Lemma add_collaborator_returns self document_id user_id role actor now c
      self1 :
  add_collaborator document_id user_id role actor now self =
  (Returns c, self1) ->
  exists d,
    check_permission self actor document_id MANAGE = true /\
    dict_get document_id (documents self) = Some d /\
    dict_mem user_id (users self) = true /\
    user_id <> Document.owner_id d /\
    c = Collaborator.mk user_id document_id role actor now None /\
    self1 =
    mkManager
      (dict_set document_id
         (Document.set_collaborators d
            (dict_set user_id c (Document.collaborators d)))
         (documents self)) (users self).
Proof.
  intros H. unfold_method_in H.
  destruct (check_permission self actor document_id MANAGE); simpl in H;
    [| discriminate H].
  destruct (dict_get document_id (documents self)) as [d|]; simpl in H;
    [| discriminate H].
  destruct (dict_mem user_id (users self)); simpl in H; [| discriminate H].
  destruct (N.eqb_spec user_id (Document.owner_id d)); simpl in H;
    [discriminate H |].
  injection H as <- <-. exists d. repeat split; assumption.
Qed.

Lemma add_collaborator_succeeds self document_id d user_id role actor now :
  check_permission self actor document_id MANAGE = true ->
  dict_get document_id (documents self) = Some d ->
  dict_mem user_id (users self) = true ->
  user_id <> Document.owner_id d ->
  add_collaborator document_id user_id role actor now self =
  (Returns (Collaborator.mk user_id document_id role actor now None),
   mkManager
     (dict_set document_id
        (Document.set_collaborators d
           (dict_set user_id
              (Collaborator.mk user_id document_id role actor now None)
              (Document.collaborators d)))
        (documents self)) (users self)).
Proof.
  intros Hc Hd Hu Hne. unfold_method.
  rewrite Hc. simpl. rewrite Hd. simpl. rewrite Hu. simpl.
  destruct (N.eqb_spec user_id (Document.owner_id d));
    [contradiction | reflexivity].
Qed.

(** X4. A successful add_collaborator returns the new record and gives the
    user exactly the role asked for on that document; the role of every
    other user, the roles on every other document and all share links are
    as before. *)
Theorem add_collaborator_grants :
  forall self document_id document user_id role actor now,
    check_permission self actor document_id MANAGE = true ->
    dict_get document_id (documents self) = Some document ->
    dict_mem user_id (users self) = true ->
    user_id <> Document.owner_id document ->
    exists self1,
      add_collaborator document_id user_id role actor now self =
      (Returns (Collaborator.mk user_id document_id role actor now None),
       self1) /\
      get_user_role self1 user_id document_id = Some role /\
      (forall u d,
          (u, d) <> (user_id, document_id) ->
          get_user_role self1 u d = get_user_role self u d) /\
      (forall d l, share_link_of self1 d l = share_link_of self d l).
Proof.
  intros self document_id d user_id role actor now Hc Hd Hu Hne.
  eexists.
  split; [exact (add_collaborator_succeeds _ _ _ _ _ _ _ Hc Hd Hu Hne) |].
  unfold get_user_role, share_link_of. simpl. split; [| split].
  - rewrite dict_get_set_same. simpl. rewrite dict_get_set_same.
    destruct (N.eqb_spec (Document.owner_id d) user_id);
      [congruence | reflexivity].
  - intros u d0 Hneq. destruct (N.eqb_spec d0 document_id) as [->|Hd0].
    + rewrite dict_get_set_same, Hd. simpl.
      rewrite dict_get_set_other; [reflexivity | congruence].
    + now rewrite dict_get_set_other.
  - intros d0 l. destruct (N.eqb_spec d0 document_id) as [->|Hd0].
    + now rewrite dict_get_set_same, Hd.
    + now rewrite dict_get_set_other.
Qed.

Lemma add_collaborator_grants_witness :
  exists self1,
    add_collaborator 11 3 EDITOR 2 20 scenario =
    (Returns (Collaborator.mk 3 11 EDITOR 2 20 None), self1) /\
    get_user_role self1 3 11 = Some EDITOR /\
    (forall u d, (u, d) <> (3%N, 11%N) ->
                 get_user_role self1 u d = get_user_role scenario u d) /\
    (forall d l, share_link_of self1 d l = share_link_of scenario d l).
Proof.
  refine (add_collaborator_grants scenario 11%N (blank_document 11 2) 3%N
            EDITOR 2%N 20%Z eq_refl eq_refl eq_refl _).
  simpl. discriminate.
Defined.

(** X5. Adding a user again replaces the earlier grant as a whole: for an
    actor other than that user, the second call behaves, in result and in
    the state it leaves, as if the first had never been made. *)
Theorem add_collaborator_last_wins :
  forall self document_id user_id role1 actor1 now1 c1 self1
         role2 actor2 now2,
    add_collaborator document_id user_id role1 actor1 now1 self =
    (Returns c1, self1) ->
    actor2 <> user_id ->
    check_permission self actor2 document_id MANAGE = true ->
    add_collaborator document_id user_id role2 actor2 now2 self1 =
    add_collaborator document_id user_id role2 actor2 now2 self /\
    exists self2,
      add_collaborator document_id user_id role2 actor2 now2 self =
      (Returns (Collaborator.mk user_id document_id role2 actor2 now2 None),
       self2).
Proof.
  intros self document_id user_id role1 actor1 now1 c1 self1
         role2 actor2 now2 H1 Hne Hc2.
  destruct (add_collaborator_returns _ _ _ _ _ _ _ _ H1)
    as (d & _ & Hd & Hu & Hno & -> & ->).
  rewrite (add_collaborator_succeeds self document_id d user_id role2 actor2
                                     now2 Hc2 Hd Hu Hno).
  split; [| eexists; reflexivity].
  set (c1 := Collaborator.mk user_id document_id role1 actor1 now1 None).
  set (d1 := Document.set_collaborators
               d (dict_set user_id c1 (Document.collaborators d))).
  set (s1 := mkManager (dict_set document_id d1 (documents self))
                       (users self)).
  assert (Hd1 : dict_get document_id (documents s1) = Some d1)
    by apply dict_get_set_same.
  assert (Hc1 : check_permission s1 actor2 document_id MANAGE = true).
  { unfold check_permission, get_user_role in *. rewrite Hd1.
    rewrite Hd in Hc2. simpl.
    rewrite dict_get_set_other by assumption. exact Hc2. }
  rewrite (add_collaborator_succeeds s1 document_id d1 user_id role2 actor2
                                     now2 Hc1 Hd1 Hu Hno).
  simpl. rewrite !dict_set_twice. reflexivity.
Qed.

Lemma add_collaborator_last_wins_witness :
  add_collaborator 10 2 VIEWER 1 30
    (state_after (add_collaborator 10 2 OWNER 1 20) scenario) =
  add_collaborator 10 2 VIEWER 1 30 scenario.
Proof.
  refine (proj1 (add_collaborator_last_wins
                   scenario 10%N 2%N OWNER 1%N 20%Z _ _ VIEWER 1%N 30%Z
                   eq_refl _ eq_refl)).
  discriminate.
Defined.

Lemma remove_collaborator_succeeds self document_id d user_id remover :
  check_permission self remover document_id MANAGE = true ->
  dict_get document_id (documents self) = Some d ->
  dict_mem user_id (Document.collaborators d) = true ->
  remove_collaborator document_id user_id remover self =
  (Returns tt,
   mkManager
     (dict_set document_id
        (Document.set_collaborators
           d (dict_del user_id (Document.collaborators d)))
        (documents self)) (users self)).
Proof.
  intros Hc Hd Hm. unfold_method.
  rewrite Hc. simpl. rewrite Hd. simpl. now rewrite Hm.
Qed.

(** X6. Adding a user who was no collaborator and removing that user again
    gives back the very state the manager was in. *)
Theorem add_then_remove_restores :
  forall self document_id user_id role actor now c self1 remover,
    collaborator_of self document_id user_id = None ->
    add_collaborator document_id user_id role actor now self =
    (Returns c, self1) ->
    check_permission self1 remover document_id MANAGE = true ->
    remove_collaborator document_id user_id remover self1 =
    (Returns tt, self).
Proof.
  intros self document_id user_id role actor now c self1 remover Hn Ha Hr.
  destruct (add_collaborator_returns _ _ _ _ _ _ _ _ Ha)
    as (d & _ & Hd & _ & _ & -> & ->).
  unfold collaborator_of in Hn. rewrite Hd in Hn.
  erewrite remove_collaborator_succeeds;
    [| exact Hr | apply dict_get_set_same
     | simpl; unfold dict_mem; now rewrite dict_get_set_same].
  simpl. rewrite dict_set_twice, (dict_del_set_fresh _ _ _ _ Hn).
  unfold Document.set_collaborators at 1. simpl.
  fold (Document.set_collaborators d (Document.collaborators d)).
  rewrite set_collaborators_same, (dict_set_same _ _ _ _ Hd).
  now destruct self.
Qed.

Lemma add_then_remove_restores_witness :
  remove_collaborator 11 3 2
    (state_after (add_collaborator 11 3 EDITOR 2 20) scenario) =
  (Returns tt, scenario).
Proof.
  exact (add_then_remove_restores
           scenario 11%N 3%N EDITOR 2%N 20%Z _ _ 2%N
           eq_refl eq_refl eq_refl).
Defined.

(** X7. A successful remove_collaborator deletes that user's record and no
    other.  Calling it again raises the not-a-collaborator error when the
    remover still holds MANAGE; a manager who is not the owner and removed
    itself is refused with the permission error instead. *)
Theorem remove_collaborator_removes :
  forall self document_id document user_id remover,
    check_permission self remover document_id MANAGE = true ->
    dict_get document_id (documents self) = Some document ->
    dict_wf (Document.collaborators document) = true ->
    dict_mem user_id (Document.collaborators document) = true ->
    exists self1,
      remove_collaborator document_id user_id remover self =
      (Returns tt, self1) /\
      collaborator_of self1 document_id user_id = None /\
      (forall u, u <> user_id ->
                 collaborator_of self1 document_id u =
                 collaborator_of self document_id u) /\
      (remover <> user_id \/ remover = Document.owner_id document ->
       remove_collaborator document_id user_id remover self1 =
       (Raises (Not_a_collaborator user_id document_id), self1)) /\
      (remover = user_id /\ remover <> Document.owner_id document ->
       remove_collaborator document_id user_id remover self1 =
       (Raises (Lacks_permission remover MANAGE document_id), self1)).
Proof.
  intros self document_id d user_id remover Hc Hd Hwf Hm.
  eexists. split; [exact (remove_collaborator_succeeds _ _ _ _ _ Hc Hd Hm) |].
  remember (Document.set_collaborators
              d (dict_del user_id (Document.collaborators d))) as d1 eqn:Ed1.
  remember (mkManager (dict_set document_id d1 (documents self))
                      (users self)) as s1 eqn:Es1.
  assert (Hd1 : dict_get document_id (documents s1) = Some d1)
    by (rewrite Es1; apply dict_get_set_same).
  assert (Hcol : Document.collaborators d1 =
                 dict_del user_id (Document.collaborators d))
    by (rewrite Ed1; reflexivity).
  assert (Hown : Document.owner_id d1 = Document.owner_id d)
    by (rewrite Ed1; reflexivity).
  assert (Hgone : dict_get user_id (Document.collaborators d1) = None)
    by (rewrite Hcol; apply dict_get_del_same; exact Hwf).
  split; [| split; [| split]].
  - unfold collaborator_of. now rewrite Hd1.
  - intros u Hu. unfold collaborator_of. rewrite Hd1, Hd, Hcol.
    now apply dict_get_del_other.
  - intros Hwho. unfold_method.
    assert (Hc1 : check_permission s1 remover document_id MANAGE = true).
    { unfold check_permission, get_user_role in *. rewrite Hd1, Hown, Hcol.
      rewrite Hd in Hc.
      destruct (N.eqb_spec (Document.owner_id d) remover) as [|Hno];
        [exact Hc |].
      destruct Hwho as [Hne | ->]; [| congruence].
      rewrite dict_get_del_other by assumption. exact Hc. }
    rewrite Hc1. simpl. rewrite Hd1. simpl.
    unfold dict_mem. now rewrite Hgone.
  - intros [-> Hno]. unfold_method.
    assert (Hc1 : check_permission s1 user_id document_id MANAGE = false).
    { unfold check_permission, get_user_role. rewrite Hd1, Hown, Hgone.
      destruct (N.eqb_spec (Document.owner_id d) user_id);
        [congruence | reflexivity]. }
    now rewrite Hc1.
Qed.

Lemma remove_collaborator_removes_witness :
  exists self1,
    remove_collaborator 10 3 1 scenario = (Returns tt, self1) /\
    collaborator_of self1 10 3 = None /\
    remove_collaborator 10 3 1 self1 =
    (Raises (Not_a_collaborator 3 10), self1).
Proof.
  pose proof (remove_collaborator_removes scenario 10%N) as H.
  specialize (H _ 3%N 1%N eq_refl eq_refl eq_refl eq_refl).
  destruct H as (self1 & H1 & H2 & _ & H3 & _).
  exists self1. split; [exact H1 |]. split; [exact H2 |].
  apply H3. left. discriminate.
Defined.

(* ------------------------------------------------------------------ *)
(** ** Who may list what *)

(** X8. Listing the collaborators is open to exactly the users who have
    some role on the document, and returns every stored record; listing the
    share links is open to exactly the users whose role is OWNER, and
    returns every stored link, revoked ones included.  Anyone else gets the
    permission error, also when the document is not registered. *)
Theorem listing_rights :
  forall self document_id user_id,
    (get_user_role self user_id document_id <> None ->
     exists d,
       dict_get document_id (documents self) = Some d /\
       list_collaborators document_id user_id self =
       (Returns (dict_values (Document.collaborators d)), self)) /\
    (get_user_role self user_id document_id = None ->
     list_collaborators document_id user_id self =
     (Raises (Lacks_permission user_id VIEW document_id), self)) /\
    (get_user_role self user_id document_id = Some OWNER ->
     exists d,
       dict_get document_id (documents self) = Some d /\
       list_share_links document_id user_id self =
       (Returns (dict_values (Document.share_links d)), self)) /\
    (get_user_role self user_id document_id <> Some OWNER ->
     list_share_links document_id user_id self =
     (Raises (Lacks_permission user_id MANAGE document_id), self)).
Proof.
  intros self document_id user_id.
  unfold list_collaborators, list_share_links, bind, gets, raise, ret,
    check_permission.
  destruct (get_user_role self user_id document_id) as [r|] eqn:Hr.
  - assert (Hd : exists d, dict_get document_id (documents self) = Some d).
    { unfold get_user_role in Hr.
      destruct (dict_get document_id (documents self)) as [d|];
        [eauto | discriminate]. }
    destruct Hd as [d Hd].
    split; [| split; [| split]].
    + intros _. exists d. split; [exact Hd |].
      replace (has_permission (Some r) VIEW) with true
        by (destruct r; reflexivity).
      simpl. now rewrite Hd.
    + discriminate.
    + intros [= ->]. exists d. split; [exact Hd |]. simpl. now rewrite Hd.
    + intros Hne. destruct r; [congruence | reflexivity | reflexivity].
  - split; [| split; [| split]].
    + congruence.
    + reflexivity.
    + discriminate.
    + reflexivity.
Qed.

Lemma listing_rights_witness :
  (exists d,
      dict_get 10 (documents scenario_revoked) = Some d /\
      list_collaborators 10 3 scenario_revoked =
      (Returns (dict_values (Document.collaborators d)), scenario_revoked)) /\
  list_share_links 10 3 scenario_revoked =
  (Raises (Lacks_permission 3 MANAGE 10), scenario_revoked) /\
  list_collaborators 10 4 scenario_revoked =
  (Raises (Lacks_permission 4 VIEW 10), scenario_revoked).
Proof.
  pose proof (listing_rights scenario_revoked 10%N 3%N) as (H1 & _ & _ & H4).
  pose proof (listing_rights scenario_revoked 10%N 4%N) as (_ & H2 & _ & _).
  split; [apply H1; discriminate |].
  split; [apply H4; discriminate | apply H2; reflexivity].
Defined.

(* ------------------------------------------------------------------ *)
(** ** A link from creation to redemption *)

(** A link created under an id no document holds is what the global lookup
    finds from then on; creating it changes no role. *)
Lemma create_share_link_found self document_id actor role expires_at new_id
      now :
  check_permission self actor document_id MANAGE = true ->
  link_unknown new_id self ->
  exists d1 s1,
    create_share_link document_id actor role expires_at new_id now self =
    (Returns (ShareLink.mk new_id document_id actor now expires_at role
                           true 0), s1) /\
    find_share_link new_id (documents s1) =
    Some (document_id, d1,
          ShareLink.mk new_id document_id actor now expires_at role true 0) /\
    dict_get document_id (documents s1) = Some d1 /\
    (forall u d, get_user_role s1 u d = get_user_role self u d).
Proof.
  intros Hc Hu.
  destruct (check_permission_document _ _ _ _ Hc) as [d Hd].
  set (l := ShareLink.mk new_id document_id actor now expires_at role true 0).
  exists (Document.set_share_links
            d (dict_set new_id l (Document.share_links d))).
  eexists. split; [| split; [| split]].
  - unfold_method. rewrite Hc. simpl. rewrite Hd. reflexivity.
  - simpl. apply (find_share_link_fresh _ _ _ d); [| exact Hd |].
    + apply find_share_link_None. exact Hu.
    + simpl. apply dict_get_set_same.
  - simpl. apply dict_get_set_same.
  - intros u d0. unfold get_user_role. simpl.
    destruct (N.eqb_spec d0 document_id) as [->|Hne].
    + now rewrite dict_get_set_same, Hd.
    + now rewrite dict_get_set_other.
Qed.

(** X9. A link may be created with any expiry, also one already past:
    creation does not look at it.  Redeeming the new link raises the
    expired-link error at every instant strictly after the expiry and
    succeeds, with the role the link was created with, at every instant up
    to and including the expiry itself. *)
Theorem created_link_expiry :
  forall self document_id actor role expires_at new_id now user_id
         now_check now_touch,
    check_permission self actor document_id MANAGE = true ->
    link_unknown new_id self ->
    ((expires_at < now_check)%Z ->
     access_via_share_link new_id user_id now_check now_touch
       (state_after
          (create_share_link document_id actor role (Some expires_at) new_id
                             now) self) =
     (Raises (Share_link_expired new_id),
      state_after
        (create_share_link document_id actor role (Some expires_at) new_id
                           now) self)) /\
    ((now_check <= expires_at)%Z ->
     exists document',
       outcome (access_via_share_link new_id user_id now_check now_touch)
         (state_after
            (create_share_link document_id actor role (Some expires_at)
                               new_id now) self) =
       Returns (document', role)).
Proof.
  intros self document_id actor role expires_at new_id now user_id
         now_check now_touch Hc Hu.
  destruct (create_share_link_found self document_id actor role
              (Some expires_at) new_id now Hc Hu)
    as (d1 & s1 & Hcr & Hf & _ & _).
  unfold state_after, outcome. rewrite Hcr. simpl.
  rewrite access_via_share_link_eq, access_scan_eq, Hf. simpl.
  unfold has_expired. simpl. split.
  - intros Hlt. apply Z.ltb_lt in Hlt. now rewrite Hlt.
  - intros Hle. apply Z.ltb_ge in Hle. rewrite Hle. simpl.
    eexists. reflexivity.
Qed.

Lemma created_link_expiry_witness :
  access_via_share_link 78 None 6 6 scenario_expiring =
  (Raises (Share_link_expired 78), scenario_expiring) /\
  exists document',
    outcome (access_via_share_link 78 None 5 5) scenario_expiring =
    Returns (document', EDITOR).
Proof.
  assert (Hu : link_unknown 78 scenario)
    by (unfold link_unknown; apply find_share_link_None; reflexivity).
  pose proof (created_link_expiry scenario 10%N 1%N EDITOR 5%Z 78%N 3%Z None
                                  6%Z 6%Z eq_refl Hu) as [H1 _].
  pose proof (created_link_expiry scenario 10%N 1%N EDITOR 5%Z 78%N 3%Z None
                                  5%Z 5%Z eq_refl Hu) as [_ H2].
  split; [apply H1; reflexivity | apply H2; discriminate].
Defined.

(** X10. Create, revoke, redeem: once any manager of the document has
    revoked a newly created link, redeeming it raises the inactive-link
    error, whoever asks, whenever, and whatever expiry the link carries. *)
Theorem revoked_link_refuses :
  forall self document_id actor role expires_at new_id now revoker user_id
         now_check now_touch,
    check_permission self actor document_id MANAGE = true ->
    check_permission self revoker document_id MANAGE = true ->
    link_unknown new_id self ->
    exists share_link s1 s2,
      create_share_link document_id actor role expires_at new_id now self =
      (Returns share_link, s1) /\
      revoke_share_link document_id new_id revoker s1 = (Returns tt, s2) /\
      access_via_share_link new_id user_id now_check now_touch s2 =
      (Raises (Share_link_inactive new_id), s2).
Proof.
  intros self document_id actor role expires_at new_id now revoker user_id
         now_check now_touch Hc Hr Hu.
  destruct (create_share_link_found self document_id actor role expires_at
              new_id now Hc Hu) as (d1 & s1 & Hcr & Hf & Hd1 & Hroles).
  destruct (find_share_link_Some _ _ _ _ _ Hf) as [_ Hl].
  exists (ShareLink.mk new_id document_id actor now expires_at role true 0),
         s1.
  eexists. split; [exact Hcr |]. split.
  - unfold_method.
    assert (Hr1 : check_permission s1 revoker document_id MANAGE = true)
      by (unfold check_permission in *; now rewrite Hroles).
    rewrite Hr1. simpl. rewrite Hd1. simpl. rewrite Hl. reflexivity.
  - rewrite access_via_share_link_eq, access_scan_eq. simpl.
    erewrite find_share_link_written;
      [| exact Hf | exact Hd1 | simpl; apply dict_get_set_same].
    reflexivity.
Qed.

Lemma revoked_link_refuses_witness :
  exists share_link s1 s2,
    create_share_link 10 1 VIEWER (Some 100%Z) 80 7 scenario =
    (Returns share_link, s1) /\
    revoke_share_link 10 80 1 s1 = (Returns tt, s2) /\
    access_via_share_link 80 (Some 2%N) 8 8 s2 =
    (Raises (Share_link_inactive 80), s2).
Proof.
  assert (Hu : link_unknown 80 scenario)
    by (unfold link_unknown; apply find_share_link_None; reflexivity).
  exact (revoked_link_refuses scenario 10%N 1%N VIEWER (Some 100%Z) 80%N 7%Z
                              1%N (Some 2%N) 8%Z 8%Z eq_refl eq_refl Hu).
Defined.

(* ------------------------------------------------------------------ *)
(** ** Listings follow insertion *)

(** X11. Listings are in insertion order.  A link created under an id new
    to the document is listed last, after the links listed before; a
    newly added collaborator is listed last as well, while adding a user
    who is a collaborator already keeps the listing's length and puts the
    new record in it. *)
Theorem listings_follow_insertion :
  (forall self document_id document actor role expires_at new_id now,
      check_permission self actor document_id MANAGE = true ->
      dict_get document_id (documents self) = Some document ->
      dict_get new_id (Document.share_links document) = None ->
      outcome (list_share_links document_id actor)
              (state_after
                 (create_share_link document_id actor role expires_at new_id
                                    now) self) =
      Returns (dict_values (Document.share_links document) ++
               [ShareLink.mk new_id document_id actor now expires_at role
                             true 0])) /\
  (forall self document_id document user_id role actor now,
      check_permission self actor document_id MANAGE = true ->
      dict_get document_id (documents self) = Some document ->
      dict_mem user_id (users self) = true ->
      user_id <> Document.owner_id document ->
      exists listed,
        outcome (list_collaborators document_id actor)
                (state_after
                   (add_collaborator document_id user_id role actor now)
                   self) = Returns listed /\
        In (Collaborator.mk user_id document_id role actor now None)
           listed /\
        (dict_mem user_id (Document.collaborators document) = false ->
         listed =
         dict_values (Document.collaborators document) ++
         [Collaborator.mk user_id document_id role actor now None]) /\
        (dict_mem user_id (Document.collaborators document) = true ->
         List.length listed =
         List.length (dict_values (Document.collaborators document)))).
Proof.
  split.
  - intros self document_id d actor role expires_at new_id now Hc Hd Hn.
    unfold state_after, outcome. unfold_method.
    rewrite Hc. simpl. rewrite Hd. simpl.
    assert (Hc1 : check_permission
                    (mkManager
                       (dict_set document_id
                          (Document.set_share_links d
                             (dict_set new_id
                                (ShareLink.mk new_id document_id actor now
                                              expires_at role true 0)
                                (Document.share_links d)))
                          (documents self)) (users self))
                    actor document_id MANAGE = true).
    { unfold check_permission, get_user_role in *. simpl.
      rewrite dict_get_set_same. simpl. now rewrite Hd in Hc. }
    rewrite Hc1. simpl. rewrite dict_get_set_same. simpl.
    now rewrite dict_values_set_fresh.
  - intros self document_id d user_id role actor now Hc Hd Hu Hne.
    unfold state_after, outcome.
    rewrite (add_collaborator_succeeds _ _ _ _ _ _ _ Hc Hd Hu Hne).
    unfold_method. simpl.
    assert (Hv : check_permission
                   (mkManager
                      (dict_set document_id
                         (Document.set_collaborators d
                            (dict_set user_id
                               (Collaborator.mk user_id document_id role
                                                actor now None)
                               (Document.collaborators d)))
                         (documents self)) (users self))
                   actor document_id VIEW = true).
    { unfold check_permission, get_user_role in *. simpl.
      rewrite dict_get_set_same. simpl. rewrite Hd in Hc.
      destruct (Document.owner_id d =? actor)%N; [reflexivity |].
      destruct (N.eqb_spec actor user_id) as [->|Hau].
      - rewrite dict_get_set_same. destruct role; reflexivity.
      - rewrite dict_get_set_other by assumption.
        destruct (dict_get actor (Document.collaborators d)) as [c|];
          [| discriminate]. simpl in *.
        destruct (Collaborator.role c); (reflexivity || discriminate). }
    rewrite Hv. simpl. rewrite dict_get_set_same. simpl.
    eexists. split; [reflexivity |]. split; [apply dict_values_set_In |].
    unfold dict_mem.
    destruct (dict_get user_id (Document.collaborators d)) as [c0|] eqn:E.
    + split; [discriminate |]. intros _.
      exact (dict_values_set_length _ _ _ _ _ E).
    + split; [| discriminate]. intros _.
      now apply dict_values_set_fresh.
Qed.

Lemma listings_follow_insertion_witness :
  outcome (list_share_links 10 1)
          (state_after (create_share_link 10 1 EDITOR None 81 9)
                       scenario_linked) =
  Returns [ShareLink.mk 77 10 1 7 None VIEWER true 0;
           ShareLink.mk 81 10 1 9 None EDITOR true 0].
Proof.
  pose proof (proj1 listings_follow_insertion scenario_linked 10%N) as H.
  exact (H _ 1%N EDITOR None 81%N 9%Z eq_refl eq_refl eq_refl).
Defined.

(* ------------------------------------------------------------------ *)
(** ** Registering users and documents *)

(** X12. Only a registered user can be made a collaborator: a manager's
    add_collaborator for a user the registry does not know raises the
    user-not-found error and changes nothing, and the same call succeeds
    once add_user has registered a user under that id.  Registering a user
    gives nobody a role. *)
Theorem registration_enables_adding :
  forall self document_id document user role actor now,
    check_permission self actor document_id MANAGE = true ->
    dict_get document_id (documents self) = Some document ->
    User.id user <> Document.owner_id document ->
    dict_mem (User.id user) (users self) = false ->
    add_collaborator document_id (User.id user) role actor now self =
    (Raises (User_not_found (User.id user)), self) /\
    outcome (add_collaborator document_id (User.id user) role actor now)
            (state_after (add_user user) self) =
    Returns (Collaborator.mk (User.id user) document_id role actor now None)
    /\
    (forall u d,
        get_user_role (state_after (add_user user) self) u d =
        get_user_role self u d).
Proof.
  intros self document_id d user role actor now Hc Hd Hne Hu.
  split; [| split].
  - unfold_method. rewrite Hc. simpl. rewrite Hd. simpl. now rewrite Hu.
  - unfold outcome, state_after, add_user. simpl.
    erewrite add_collaborator_succeeds; [reflexivity | exact Hc | exact Hd | |
                                         exact Hne].
    simpl. unfold dict_mem. now rewrite dict_get_set_same.
  - reflexivity.
Qed.

Lemma registration_enables_adding_witness :
  add_collaborator 10 4 VIEWER 1 9 scenario =
  (Raises (User_not_found 4), scenario) /\
  outcome (add_collaborator 10 4 VIEWER 1 9)
          (state_after (add_user (User.mk 4 "s@test.com" "Stranger"))
                       scenario) =
  Returns (Collaborator.mk 4 10 VIEWER 1 9 None).
Proof.
  pose proof (registration_enables_adding
                scenario 10%N) as H.
  specialize (H _ (User.mk 4 "s@test.com" "Stranger") VIEWER 1%N 9%Z
                eq_refl eq_refl).
  simpl in H.
  destruct H as (H1 & H2 & _); [discriminate | reflexivity |].
  split; [exact H1 | exact H2].
Defined.

(** X13. add_document is last-write-wins on the document's id and touches
    nothing else: afterwards the roles on that id are the ones the
    registered object carries (its owner is OWNER, its collaborator records
    give the other roles) and its links are the object's links, whatever
    was registered under the id before; roles on other ids are unchanged,
    and the documents keep distinct keys. *)
Theorem add_document_replaces :
  forall self document user_id,
    get_user_role (state_after (add_document document) self) user_id
                  (Document.id document) =
    (if (Document.owner_id document =? user_id)%N then Some OWNER
     else option_map Collaborator.role
                     (dict_get user_id (Document.collaborators document))) /\
    (forall link_id,
        share_link_of (state_after (add_document document) self)
                      (Document.id document) link_id =
        dict_get link_id (Document.share_links document)) /\
    (forall other,
        other <> Document.id document ->
        get_user_role (state_after (add_document document) self) user_id
                      other =
        get_user_role self user_id other) /\
    (dict_wf (documents self) = true ->
     dict_wf (documents (state_after (add_document document) self)) = true).
Proof.
  intros self d user_id.
  unfold state_after, add_document, get_user_role, share_link_of. simpl.
  rewrite dict_get_set_same.
  split; [| split; [| split]].
  - destruct (Document.owner_id d =? user_id)%N; [reflexivity |].
    now destruct (dict_get user_id (Document.collaborators d)).
  - reflexivity.
  - intros other Hne. now rewrite dict_get_set_other.
  - apply dict_wf_set.
Qed.

Lemma add_document_replaces_witness :
  get_user_role (state_after (add_document (blank_document 10 3)) scenario)
                2 10 = None /\
  get_user_role (state_after (add_document (blank_document 10 3)) scenario)
                2 11 = Some OWNER /\
  dict_wf (documents
             (state_after (add_document (blank_document 10 3)) scenario)) =
  true.
Proof.
  pose proof (add_document_replaces scenario (blank_document 10 3) 2%N)
    as (H1 & _ & H3 & H4).
  split; [exact H1 |].
  split; [apply H3; discriminate | apply H4; reflexivity].
Defined.

(* ------------------------------------------------------------------ *)
(** ** The stamp a redemption leaves *)

Lemma redeemed_collaborators document share_link link_id user_id now_touch :
  Document.collaborators
    (redeemed document share_link link_id user_id now_touch) =
  match user_id with
  | Some uid =>
      match dict_get uid (Document.collaborators document) with
      | Some c =>
          dict_set uid (Collaborator.set_last_accessed c (Some now_touch))
                   (Document.collaborators document)
      | None => Document.collaborators document
      end
  | None => Document.collaborators document
  end.
Proof.
  unfold redeemed. destruct user_id as [uid|]; [| reflexivity]. simpl.
  destruct (dict_get uid (Document.collaborators document)); reflexivity.
Qed.

(** X14. A successful redemption stamps last_accessed on the caller's
    collaborator record in the link's document, when the caller is given
    and has one, and on nothing else: a caller without a record gets none,
    and every other record of every document is as it was. *)
Theorem redemption_stamps_caller :
  forall self link_id user_id now_check now_touch key document share_link,
    dict_wf (documents self) = true ->
    find_share_link link_id (documents self) =
    Some (key, document, share_link) ->
    ShareLink.is_active share_link = true ->
    has_expired share_link now_check = false ->
    (forall uid c,
        user_id = Some uid ->
        dict_get uid (Document.collaborators document) = Some c ->
        collaborator_of
          (state_after
             (access_via_share_link link_id user_id now_check now_touch)
             self) key uid =
        Some (Collaborator.set_last_accessed c (Some now_touch))) /\
    (forall uid,
        user_id = Some uid ->
        dict_get uid (Document.collaborators document) = None ->
        collaborator_of
          (state_after
             (access_via_share_link link_id user_id now_check now_touch)
             self) key uid = None) /\
    (forall key' u,
        key' <> key \/ Some u <> user_id ->
        collaborator_of
          (state_after
             (access_via_share_link link_id user_id now_check now_touch)
             self) key' u =
        collaborator_of self key' u).
Proof.
  intros self link_id user_id now_check now_touch key d l Hwf Hf Hact Hexp.
  pose proof (dict_wf_find_get _ _ _ _ _ Hwf Hf) as Hg.
  unfold state_after, collaborator_of.
  rewrite access_via_share_link_eq, access_scan_eq, Hf, Hact, Hexp. simpl.
  split; [| split].
  - intros uid c -> Hc.
    rewrite dict_get_set_same, redeemed_collaborators, Hc.
    apply dict_get_set_same.
  - intros uid -> Hc.
    now rewrite dict_get_set_same, redeemed_collaborators, Hc.
  - intros key' u Hne. destruct (N.eqb_spec key' key) as [->|Hk].
    + rewrite dict_get_set_same, Hg, redeemed_collaborators.
      destruct Hne as [Hne | Hne]; [congruence |].
      destruct user_id as [uid|]; [| reflexivity].
      destruct (dict_get uid (Document.collaborators d)); [| reflexivity].
      apply dict_get_set_other. congruence.
    + now rewrite dict_get_set_other.
Qed.

Lemma redemption_stamps_caller_witness :
  collaborator_of
    (state_after (access_via_share_link 77 (Some 2%N) 8 9) scenario_linked)
    10 2 = Some (Collaborator.mk 2 10 EDITOR 1 5 (Some 9%Z)) /\
  collaborator_of
    (state_after (access_via_share_link 77 (Some 2%N) 8 9) scenario_linked)
    10 3 = Some (Collaborator.mk 3 10 VIEWER 1 6 None).
Proof.
  pose proof (redemption_stamps_caller
                scenario_linked 77%N (Some 2%N) 8%Z 9%Z 10%N) as H.
  specialize (H _ _ eq_refl eq_refl eq_refl eq_refl).
  destruct H as (H1 & _ & H3).
  split.
  - exact (H1 2%N (Collaborator.mk 2 10 EDITOR 1 5 None) eq_refl eq_refl).
  - apply (H3 10%N 3%N). right. discriminate.
Defined.

(* ================================================================== *)
(** * Properties of the exporters *)

Section ExportFacts.
Import DocumentExporter.

(** The first piece of a split is empty or starts as the string does. *)
Lemma split_blank_head s :
  exists p ps,
    split_blank s = p :: ps /\
    (p = EmptyString \/
     exists c r q, s = String c r /\ p = String c q).
Proof.
  destruct s as [|c rest]; simpl.
  - exists EmptyString, []. auto.
  - assert (Hpush : exists p ps,
               push c (split_blank rest) = p :: ps /\
               (p = EmptyString \/
                exists c0 r q, String c rest = String c0 r /\ p = String c0 q)).
    { unfold push. destruct (split_blank rest) as [|p ps].
      - do 2 eexists. split; [reflexivity |]. right.
        do 3 eexists. split; reflexivity.
      - do 2 eexists. split; [reflexivity |]. right.
        do 3 eexists. split; reflexivity. }
    destruct rest as [|c2 rest']; [exact Hpush |].
    destruct (is_newline c && is_newline c2); [| exact Hpush].
    do 2 eexists. split; [reflexivity | now left].
Qed.

Lemma has_blank_line_cons c s :
  has_blank_line (String c s) =
  match s with
  | String c2 _ => (is_newline c && is_newline c2) || has_blank_line s
  | EmptyString => false
  end.
Proof. reflexivity. Qed.

Lemma split_blank_cons c s :
  split_blank (String c s) =
  match s with
  | String c2 rest' =>
      if is_newline c && is_newline c2 then EmptyString :: split_blank rest'
      else push c (split_blank s)
  | EmptyString => push c (split_blank s)
  end.
Proof. reflexivity. Qed.

(** No piece of a split holds a blank line, and joining the pieces gives
    the string back. *)
Lemma split_blank_pieces s :
  (Forall (fun p => has_blank_line p = false) (split_blank s) /\
   join_blank (split_blank s) = s) /\
  forall c,
    Forall (fun p => has_blank_line p = false) (split_blank (String c s)) /\
    join_blank (split_blank (String c s)) = String c s.
Proof.
  induction s as [|c2 rest' [IH1 IH2]].
  - split; [split; [repeat constructor | reflexivity] |].
    intros c. split; [repeat constructor | reflexivity].
  - split; [exact (IH2 c2) |].
    intros c. rewrite split_blank_cons.
    destruct (is_newline c && is_newline c2) eqn:Hnl.
    + destruct IH1 as [Hall Hjoin]. split.
      * constructor; [reflexivity | exact Hall].
      * apply andb_true_iff in Hnl as [Hc Hc2].
        apply Ascii.eqb_eq in Hc, Hc2. subst c c2.
        cbn [join_blank].
        destruct (split_blank rest') as [|p ps] eqn:E.
        { destruct (split_blank_head rest') as (p & ps & Hp & _).
          congruence. }
        simpl. now rewrite <- Hjoin.
    + destruct (IH2 c2) as [Hall Hjoin].
      destruct (split_blank_head (String c2 rest'))
        as (p & ps & Hp & Hhead).
      rewrite Hp in *. unfold push.
      inversion Hall as [|? ? Hp0 Hps]; subst. split.
      * constructor; [| exact Hps].
        rewrite has_blank_line_cons. destruct Hhead as [-> | Hhead];
          [reflexivity |].
        destruct Hhead as (c0 & r & q & [= <- <-] & ->).
        now rewrite Hnl, Hp0.
      * cbn [join_blank] in *. destruct ps as [|p' ps'].
        { now rewrite Hjoin. }
        simpl. now rewrite <- Hjoin.
Qed.

Lemma split_blank_no_blank_line s p :
  In p (split_blank s) -> has_blank_line p = false.
Proof.
  intros Hin. destruct (split_blank_pieces s) as [[Hall _] _].
  rewrite Forall_forall in Hall. now apply Hall.
Qed.

Lemma pdf_paragraphs_In text para style :
  In (Paragraph para style) (pdf_paragraphs text) ->
  style = Justify /\ In para (split_blank text) /\ has_text para = true.
Proof.
  unfold pdf_paragraphs. rewrite in_flat_map.
  intros (p & Hp & Hin). destruct (has_text p) eqn:Ht; [| contradiction].
  destruct Hin as [[= <- <-] | [Hin | []]]; [auto | discriminate Hin].
Qed.

Lemma docx_paragraphs_In text para :
  In (Body_paragraph para) (docx_paragraphs text) ->
  In para (split_blank text) /\ has_text para = true.
Proof.
  unfold docx_paragraphs. rewrite in_flat_map.
  intros (p & Hp & Hin). destruct (has_text p) eqn:Ht; [| contradiction].
  destruct Hin as [[= <-] | []]. auto.
Qed.

Lemma pdf_body_paragraph_ok content metadata today para :
  In (Paragraph para Justify) (pdf_story content metadata today) ->
  has_text para = true /\ has_blank_line para = false.
Proof.
  unfold pdf_story. rewrite in_app_iff. intros [Hh | Hb].
  - unfold pdf_header in Hh.
    destruct metadata as [[|e m]|]; simpl in Hh; try contradiction.
    destruct Hh as [H | [H | [H | [H | []]]]]; discriminate H.
  - assert (Hpar : forall t, In (Paragraph para Justify) (pdf_paragraphs t) ->
                             has_text para = true /\
                             has_blank_line para = false).
    { intros t Ht. destruct (pdf_paragraphs_In _ _ _ Ht) as (_ & Hin & Hv).
      split; [exact Hv | exact (split_blank_no_blank_line _ _ Hin)]. }
    destruct (match content_chapters content with
              | Some l => l
              | None => []
              end) as [|ch chs] eqn:E; [exact (Hpar _ Hb) |].
    rewrite in_flat_map in Hb. destruct Hb as (c & _ & Hc).
    unfold pdf_chapter in Hc. rewrite !in_app_iff in Hc.
    destruct Hc as [Hc | [Hc | Hc]].
    + destruct (or_empty (chapter_title c)); simpl in Hc; [contradiction |].
      destruct Hc as [H | [H | []]]; discriminate H.
    + exact (Hpar _ Hc).
    + destruct Hc as [H | []]; discriminate H.
Qed.

Lemma docx_body_paragraph_ok content metadata today now para :
  In (Body_paragraph para) (blocks (docx_document content metadata today now))
  -> has_text para = true /\ has_blank_line para = false.
Proof.
  unfold docx_document.
  assert (Hhead : forall header raised,
             docx_header metadata today = (header, raised) ->
             ~ In (Body_paragraph para) header).
  { unfold docx_header. intros header raised Hh Hin.
    destruct metadata as [[|e m]|];
      try (injection Hh as <- <-; exact Hin).
    destruct (str_get "title" "Untitled Document" (e :: m));
      injection Hh as <- <-; simpl in Hin.
    - destruct Hin as [H | []]; discriminate H.
    - destruct Hin as [H | [H | [H | [H | []]]]]; discriminate H. }
  destruct (docx_header metadata today) as [header raised] eqn:Ehead.
  specialize (Hhead header raised eq_refl).
  destruct raised; cbn [blocks]; [intros Hin; contradiction |].
  rewrite in_app_iff. intros [Hh | Hb]; [contradiction |].
  - assert (Hpar : forall t, In (Body_paragraph para) (docx_paragraphs t) ->
                             has_text para = true /\
                             has_blank_line para = false).
    { intros t Ht. destruct (docx_paragraphs_In _ _ Ht) as (Hin & Hv).
      split; [exact Hv | exact (split_blank_no_blank_line _ _ Hin)]. }
    destruct (match content_chapters content with
              | Some l => l
              | None => []
              end) as [|ch chs] eqn:E; [exact (Hpar _ Hb) |].
    rewrite in_flat_map in Hb. destruct Hb as (c & _ & Hc).
    unfold docx_chapter in Hc. rewrite !in_app_iff in Hc.
    destruct Hc as [Hc | [Hc | Hc]].
    + destruct (or_empty (chapter_title c)); simpl in Hc; [contradiction |].
      destruct Hc as [H | []]; discriminate H.
    + exact (Hpar _ Hc).
    + destruct Hc as [H | []]; discriminate H.
Qed.

(** X15. Neither exporter hands a blank paragraph to its library: every
    body paragraph of the PDF story and every body paragraph added to the
    DOCX document has a character that is not white space, and none
    contains a blank line. *)
Theorem exports_skip_blank_paragraphs :
  forall content metadata today now para,
    (In (Paragraph para Justify) (pdf_story content metadata today) ->
     has_text para = true /\ has_blank_line para = false) /\
    (In (Body_paragraph para)
        (blocks (docx_document content metadata today now)) ->
     has_text para = true /\ has_blank_line para = false).
Proof.
  intros content metadata today now para. split.
  - apply pdf_body_paragraph_ok.
  - apply docx_body_paragraph_ok.
Qed.

Lemma exports_skip_blank_paragraphs_witness :
  has_text "The adventure continued." = true /\
  has_blank_line "The adventure continued." = false.
Proof.
  refine (proj1 (exports_skip_blank_paragraphs
                   sample_content (Some sample_metadata) "2026-01-01"%string
                   0%Z "The adventure continued."%string) _).
  vm_compute. tauto.
Defined.

(** X16. When the content has at least one chapter its top-level text is
    not exported: two contents with the same chapters give the same export
    in either format, whatever their text fields hold. *)
Theorem chapters_take_precedence :
  forall (Bytes : Type) (build_pdf : list Flowable -> Bytes)
         (save_docx : Docx -> Bytes) content1 content2 format metadata
         today now,
    chapters_of content1 = chapters_of content2 ->
    chapters_of content1 <> [] ->
    export build_pdf save_docx content1 format metadata today now =
    export build_pdf save_docx content2 format metadata today now.
Proof.
  intros Bytes build_pdf save_docx c1 c2 format metadata today now He Hne.
  unfold chapters_of in *.
  unfold export, export_to_pdf, export_to_docx, pdf_story, docx_document.
  rewrite <- He.
  destruct (match content_chapters c1 with
            | Some l => l
            | None => []
            end) as [|ch chs]; [congruence |].
  destruct format; [reflexivity |].
  destruct (docx_raises metadata today); [reflexivity |].
  destruct (docx_header metadata today) as [header raised].
  destruct raised; reflexivity.
Qed.

Lemma chapters_take_precedence_witness :
  Rendered (pdf_story sample_content None "2026-01-01") =
  Rendered (pdf_story (mkContent None (content_chapters sample_content))
                      None "2026-01-01").
Proof.
  refine (chapters_take_precedence
            (list Flowable) (fun story => story) (fun _ => [])
            sample_content
            (mkContent None (content_chapters sample_content))
            PDF None "2026-01-01"%string 0%Z eq_refl _).
  discriminate.
Defined.

End ExportFacts.
